(** * eot.py: equation-of-time table from a Horizons ephemeris response

    A shallow embedding of [src/eot.py] and the properties of the table it
    writes.  The script fetches one text response, cuts the data rows out of
    it, converts the apparent solar time of every row into an equation-of-time
    value, groups the values by year, pads every year of the configured range
    with one value of each neighbouring year and dumps the table as JSON.

    Modelling conventions.
    - A Python [str] is a [string]; a character is a code point below 256.
    - A Python [int] is a [Z]; a Python [float] is an IEEE 754 binary64 number,
      a [spec_float] operated at precision 53 and maximal exponent 1024.
    - An exception is a value of [exn]; code that may raise returns a [result].
    - A [dict] is an association list in insertion order, as Python keeps it
      and [json.dump] writes it.
    - The network request is outside the model: [main] takes the response
      body ([response.text]) and returns what is handed to [json.dump]. *)

From Stdlib Require Import ZArith List String Ascii Bool Lia Permutation.
From Stdlib Require Import SpecFloat DecimalString DecimalZ DecimalPos.
From Stdlib Require Sorted.
Import ListNotations.

#[local] Open Scope string_scope.
#[local] Open Scope list_scope.
#[local] Open Scope Z_scope.

(** ** Exceptions *)

Inductive exn : Set :=
| ValueError
| IndexError
| KeyError
| AssertionError.

Inductive result (A : Type) : Type :=
| Ok (a : A)
| Raise (e : exn).

Arguments Ok {A} a.
Arguments Raise {A} e.

Definition bind {A B : Type} (r : result A) (k : A -> result B) : result B :=
  match r with
  | Ok a => k a
  | Raise e => Raise e
  end.

Notation "x <- r ;; k" := (bind r (fun x => k))
  (at level 61, r at next level, right associativity).
Notation "' p <- r ;; k" := (bind r (fun x => let p := x in k))
  (at level 61, p pattern, r at next level, right associativity).

(** ** Python floats: IEEE 754 binary64 *)

Module Float.

Definition float : Set := spec_float.

Definition prec : Z := 53.
Definition emax : Z := 1024.

Definition add : float -> float -> float := SFadd prec emax.
Definition sub : float -> float -> float := SFsub prec emax.
Definition mul : float -> float -> float := SFmul prec emax.
Definition div : float -> float -> float := SFdiv prec emax.
Definition leb : float -> float -> bool := SFleb.

(** The float nearest to the rational [(-1)^s * p / q] (ties to even).
    The quotient of two integers is rounded once, by the division itself. *)
Definition of_ratio (s : bool) (p q : positive) : float :=
  SFdiv prec emax (S754_finite s p 0) (S754_finite false q 0).

(** [float(n)] of an integer: the nearest float. *)
Definition of_Z (n : Z) : float := binary_normalize prec emax n 0 false.

(** The float nearest to [(-1)^s * m * 10^e]. *)
Definition of_decimal (s : bool) (m : N) (e : Z) : float :=
  match m with
  | N0 => S754_zero s
  | Npos p =>
      match e with
      | Z0 => of_ratio s p 1
      | Zpos k => of_ratio s (p * 10 ^ k) 1
      | Zneg k => of_ratio s p (10 ^ k)
      end
  end.

(** [round(x, ndigits)] for [ndigits >= 0], as CPython computes it: the
    exact value of [x] is rounded to [ndigits] decimals, ties to even, and
    the decimal obtained is converted back to the nearest float.  Infinities,
    NaN and zeros are returned as they are, and so is any [x] when [ndigits]
    exceeds [NDIGITS_MAX]. *)
Definition NDIGITS_MAX : N := 323.

Definition round_half_even (p q : Z) : Z :=
  let (d, r) := Z.div_eucl p q in
  match 2 * r ?= q with
  | Lt => d
  | Gt => d + 1
  | Eq => if Z.even d then d else d + 1
  end.

Definition round (x : float) (ndigits : N) : float :=
  match x with
  | S754_finite s m e =>
      if (NDIGITS_MAX <? ndigits)%N then x
      else
        let p := Zpos m * 10 ^ Z.of_N ndigits in
        let n := match e with
                 | Zneg k => round_half_even p (2 ^ Zpos k)
                 | _ => p * 2 ^ e
                 end in
        of_decimal s (Z.to_N n) (- Z.of_N ndigits)
  | _ => x
  end.

End Float.

(** ** Python strings *)

Module Str.

#[local] Open Scope char_scope.

Definition code (c : ascii) : N := N_of_ascii c.

(** [str.isspace] on one character (code points below 256). *)
Definition is_space (c : ascii) : bool :=
  let n := code c in
  ((9 <=? n) && (n <=? 13) || (28 <=? n) && (n <=? 32)
   || (n =? 133) || (n =? 160))%N.

Definition is_digit (c : ascii) : bool :=
  let n := code c in ((48 <=? n) && (n <=? 57))%N.

Definition digit_val (c : ascii) : N := (code c - 48)%N.

(** [str.lower] on one character, for the letters of ASCII. *)
Definition lower (c : ascii) : ascii :=
  let n := code c in
  if ((65 <=? n) && (n <=? 90))%N then ascii_of_N (n + 32) else c.

(** [s.split(sep)] for a separator of one character: the pieces between the
    occurrences of [sep], empty pieces included. *)
Fixpoint split_on (sep : ascii) (s : string) : list string :=
  match s with
  | EmptyString => [EmptyString]
  | String c s' =>
      if Ascii.eqb c sep then EmptyString :: split_on sep s'
      else
        match split_on sep s' with
        | w :: ws => String c w :: ws
        | [] => [String c EmptyString]
        end
  end.

(** [s.split()]: the maximal runs of characters that are not whitespace. *)
Fixpoint split_ws (s : string) : list string :=
  match s with
  | EmptyString => []
  | String c s' =>
      if is_space c then split_ws s'
      else
        match s' with
        | EmptyString => [String c EmptyString]
        | String c' _ =>
            if is_space c' then String c EmptyString :: split_ws s'
            else
              match split_ws s' with
              | w :: ws => String c w :: ws
              | [] => [String c EmptyString]
              end
        end
  end.

(** [s.strip()] on a list of characters. *)
Fixpoint lstrip (cs : list ascii) : list ascii :=
  match cs with
  | c :: cs' => if is_space c then lstrip cs' else cs
  | [] => []
  end.

Definition strip (cs : list ascii) : list ascii :=
  rev (lstrip (rev (lstrip cs))).

(** Underscores in a numeric literal: each one must stand between two
    digits, and is dropped.  [prev] is the character before [cs]. *)
Fixpoint drop_underscores (prev : option ascii) (cs : list ascii)
  : option (list ascii) :=
  match cs with
  | [] => Some []
  | c :: cs' =>
      if Ascii.eqb c "_" then
        match prev, cs' with
        | Some p, n :: _ =>
            if is_digit p && is_digit n then drop_underscores (Some c) cs'
            else None
        | _, _ => None
        end
      else option_map (cons c) (drop_underscores (Some c) cs')
  end.

(** The longest prefix of digits, read as a number, and what follows it. *)
Fixpoint digits (acc : N) (count : nat) (cs : list ascii)
  : N * nat * list ascii :=
  match cs with
  | c :: cs' =>
      if is_digit c then digits (10 * acc + digit_val c) (S count) cs'
      else (acc, count, cs)
  | [] => (acc, count, [])
  end.

(** An optional sign: [true] for a minus. *)
Definition sign (cs : list ascii) : bool * list ascii :=
  match cs with
  | "-" :: cs' => (true, cs')
  | "+" :: cs' => (false, cs')
  | _ => (false, cs)
  end.

End Str.

(** ** The builtins [int] and [float] on strings *)

(** [int(s)]: optional whitespace around an optional sign and decimal digits,
    single underscores allowed between digits.  (The limit CPython 3.11 puts
    on the number of digits of the literal is not modelled.) *)
Definition int (s : string) : result Z :=
  let (neg, body) := Str.sign (Str.strip (list_ascii_of_string s)) in
  match Str.drop_underscores None body with
  | Some (c :: cs) =>
      match Str.digits 0 0 (c :: cs) with
      | (n, S _, []) => Ok (if neg then - Z.of_N n else Z.of_N n)
      | _ => Raise ValueError
      end
  | _ => Raise ValueError
  end.

Module FloatParse.

#[local] Open Scope char_scope.

(** [digits [. digits]] or [. digits], at least one digit in all: the digits
    as one number and the count of those after the point. *)
Definition mantissa (cs : list ascii) : option (N * nat * list ascii) :=
  let '(n1, k1, r1) := Str.digits 0 0 cs in
  match r1 with
  | "." :: r2 =>
      let '(n2, k2, r3) := Str.digits n1 0 r2 in
      match (k1 + k2)%nat with
      | O => None
      | S _ => Some (n2, k2, r3)
      end
  | _ =>
      match k1 with
      | O => None
      | S _ => Some (n1, O, r1)
      end
  end.

(** [(e|E) [sign] digits] up to the end of the string, or nothing. *)
Definition exponent (cs : list ascii) : option Z :=
  match cs with
  | [] => Some 0
  | c :: cs' =>
      if Ascii.eqb (Str.lower c) "e" then
        let (neg, r) := Str.sign cs' in
        match Str.digits 0 0 r with
        | (n, S _, []) => Some (if neg then - Z.of_N n else Z.of_N n)
        | _ => None
        end
      else None
  end.

Definition is_word (w : string) (cs : list ascii) : bool :=
  String.eqb (string_of_list_ascii (map Str.lower cs)) w.

End FloatParse.

(** [float(s)]: optional whitespace around an optional sign and [inf],
    [infinity] or [nan] in any case, or a decimal number with an optional
    fraction and exponent.  The value is the nearest float; a number too
    large gives an infinity. *)
Definition float (s : string) : result Float.float :=
  match Str.drop_underscores None (Str.strip (list_ascii_of_string s)) with
  | None => Raise ValueError
  | Some cs =>
      let (neg, body) := Str.sign cs in
      if FloatParse.is_word "inf" body || FloatParse.is_word "infinity" body
      then Ok (S754_infinity neg)
      else if FloatParse.is_word "nan" body then Ok S754_nan
      else
        match FloatParse.mantissa body with
        | Some (m, k, rest) =>
            match FloatParse.exponent rest with
            | Some e => Ok (Float.of_decimal neg m (e - Z.of_nat k))
            | None => Raise ValueError
            end
        | None => Raise ValueError
        end
  end.

(** ** Python lists *)

Section PyList.
Context {A : Type}.

Definition len (l : list A) : Z := Z.of_nat (List.length l).

(** [l[i]], negative indices counting from the end. *)
Definition getitem (l : list A) (i : Z) : result A :=
  let k := if i <? 0 then i + len l else i in
  if k <? 0 then Raise IndexError
  else
    match nth_error l (Z.to_nat k) with
    | Some a => Ok a
    | None => Raise IndexError
    end.

(** A bound of a slice, brought into [0 .. len l]. *)
Definition clamp (l : list A) (i : Z) : nat :=
  Z.to_nat (if i <? 0 then Z.max (i + len l) 0 else Z.min i (len l)).

(** [l[i:j]]. *)
Definition slice (l : list A) (i j : Z) : list A :=
  firstn (clamp l j - clamp l i) (skipn (clamp l i) l).

(** [l.index(x)]: the position of the first element equal to [x]. *)
Fixpoint index (eqb : A -> A -> bool) (l : list A) (x : A) : result Z :=
  match l with
  | [] => Raise ValueError
  | a :: l' => if eqb a x then Ok 0 else k <- index eqb l' x ;; Ok (k + 1)
  end.

(** A [for] loop whose body may raise: the state is threaded through the
    items in order and the first exception ends the loop. *)
Fixpoint for_each {S : Type} (items : list A) (body : S -> A -> result S)
  (s : S) : result S :=
  match items with
  | [] => Ok s
  | a :: items' => s' <- body s a ;; for_each items' body s'
  end.
End PyList.

(** [range(a, b)]. *)
Definition range (a b : Z) : list Z :=
  map (fun k => a + Z.of_nat k) (seq 0 (Z.to_nat (b - a))).

(** ** Python dictionaries with integer keys *)

Section Dict.
Context {V : Type}.

Definition dict : Type := list (Z * V).

Fixpoint get (d : dict) (k : Z) : option V :=
  match d with
  | [] => None
  | (k', v) :: d' => if k' =? k then Some v else get d' k
  end.

(** [d[k] = v]: the value of an old key is replaced where it stands, a new
    key goes to the end. *)
Fixpoint set (d : dict) (k : Z) (v : V) : dict :=
  match d with
  | [] => [(k, v)]
  | (k', v') :: d' =>
      if k' =? k then (k, v) :: d' else (k', v') :: set d' k v
  end.

Definition remove (d : dict) (k : Z) : dict :=
  filter (fun kv => negb (fst kv =? k)) d.

(** [d[k]] of a plain [dict]. *)
Definition lookup (d : dict) (k : Z) : result V :=
  match get d k with
  | Some v => Ok v
  | None => Raise KeyError
  end.

(** [del d[k]]. *)
Definition del (d : dict) (k : Z) : result dict :=
  match get d k with
  | Some _ => Ok (remove d k)
  | None => Raise KeyError
  end.

Definition keys (d : dict) : list Z := map fst d.
End Dict.

Arguments dict V : clear implicits.

(** [d[k]] of a [defaultdict(list)]: a missing key is first bound to a new
    empty list.  The list found and the dictionary after the access. *)
Definition getdefault {A : Type} (d : dict (list A)) (k : Z)
  : list A * dict (list A) :=
  match get d k with
  | Some l => (l, d)
  | None => ([], set d k [])
  end.

(** ** The script *)

(** What a list of the table may hold: a float, or the [None] that marks the
    missing side of a boundary year. *)
Inductive value : Set :=
| PyNone
| PyFloat (x : Float.float).

Definition table : Type := dict (list value).

Definition NL : ascii := ascii_of_N 10.
Definition SOE : string := "$$SOE".
Definition EOE : string := "$$EOE".

(** [(h + (m + s/60)/60 - 12)*60] *)
Definition eot (h m s : Float.float) : Float.float :=
  let f60 := Float.of_Z 60 in
  let f12 := Float.of_Z 12 in
  Float.mul
    (Float.sub (Float.add h (Float.div (Float.add m (Float.div s f60)) f60))
       f12)
    f60.

(** One turn of the loop over the data rows, up to the value appended:
    the year of the row and its rounded equation of time. *)
Definition parse_row (line : string) : result (Z * Float.float) :=
  let a := Str.split_ws line in
  a0 <- getitem a 0 ;;
  y0 <- getitem (Str.split_on "-" a0) 0 ;;
  year <- int y0 ;;
  t <- getitem a (-1) ;;
  s <- float t ;;
  t <- getitem a (-2) ;;
  m <- float t ;;
  t <- getitem a (-3) ;;
  h <- float t ;;
  Ok (year, Float.round (eot h m s) 2).

(** [eots_of_year[year].append(v)] *)
Definition append (d : table) (year : Z) (v : value) : table :=
  let (l, d) := getdefault d year in
  set d year (l ++ [v]).

Definition row_step (d : table) (line : string) : result table :=
  '(year, v) <- parse_row line ;;
  Ok (append d year (PyFloat v)).

Definition py_assert (b : bool) : result unit :=
  if b then Ok tt else Raise AssertionError.

(** The rows between the sentinel lines. *)
Definition data_rows (lines : list string) : result (list string) :=
  i <- index String.eqb lines SOE ;;
  j <- index String.eqb lines EOE ;;
  Ok (slice lines (i + 1) j).

(** The first loop: the table of the rounded values of every year, as it
    stands before the assertions. *)
Definition group_rows (text : string) : result table :=
  let lines := Str.split_on NL text in
  rows <- data_rows lines ;;
  for_each rows row_step [].

Section Script.
(** The two constants of the script, [start] and [end]. *)
Variables (start end_ : Z).

(** [assert len(eots_of_year[year]) == 1] *)
Definition assert_one (d : table) (year : Z) : result table :=
  let (l, d) := getdefault d year in
  _ <- py_assert (len l =? 1) ;;
  Ok d.

(** [e[year] = (eots_of_year[year][0], eots_of_year[year][-1])] *)
Definition ends_step (st : table * dict (value * value)) (year : Z)
  : result (table * dict (value * value)) :=
  let (d, e) := st in
  let (l, d) := getdefault d year in
  first <- getitem l 0 ;;
  let (l, d) := getdefault d year in
  last <- getitem l (-1) ;;
  Ok (d, set e year (first, last)).

(** The body of the padding loop:
    [eots_of_year[year].insert(0, e[year-1][1])] and
    [eots_of_year[year].append(e[year+1][0])]. *)
Definition pad_step (e : dict (value * value)) (d : table) (year : Z)
  : result table :=
  let (l, d) := getdefault d year in
  p <- lookup e (year - 1) ;;
  let d := set d year (snd p :: l) in
  let (l, d) := getdefault d year in
  n <- lookup e (year + 1) ;;
  Ok (set d year (l ++ [fst n])).

(** From the assertions to the table given to [json.dump]. *)
Definition pad (d : table) : result table :=
  d <- assert_one d (start - 1) ;;
  d <- assert_one d (end_ + 1) ;;
  let (l, d) := getdefault d (start - 1) in
  v <- getitem l 0 ;;
  let e := set [] (start - 1) (PyNone, v) in
  let (l, d) := getdefault d (end_ + 1) in
  v <- getitem l 0 ;;
  let e := set e (end_ + 1) (v, PyNone) in
  '(d, e) <- for_each (range start (end_ + 1)) ends_step (d, e) ;;
  d <- for_each (range start (end_ + 1)) (pad_step e) d ;;
  d <- del d (start - 1) ;;
  d <- del d (end_ + 1) ;;
  Ok d.

(** The script, from [response.text] to the table it dumps. *)
Definition main (text : string) : result table :=
  d <- group_rows text ;;
  pad d.
End Script.

(** The values the script gives its constants. *)
Definition start : Z := 2000.
Definition end_ : Z := 2100.

(** [json.dump] writes the keys of the table in the order of the
    dictionary, an integer key as its decimal string. *)
Definition json_key (k : Z) : string := NilZero.string_of_int (Z.to_int k).

Definition json_keys (t : table) : list string := map json_key (keys t).

(** ** Reading the table *)

(** [eots_of_year[year]] read without its side effect: the list of a year,
    empty when the year has no key. *)
Definition items (d : table) (year : Z) : list value :=
  match get d year with
  | Some l => l
  | None => []
  end.

(** The data rows converted one by one, in order; the first row that fails
    raises. *)
Fixpoint parse_all (lines : list string) : result (list (Z * Float.float)) :=
  match lines with
  | [] => Ok []
  | line :: lines' =>
      r <- parse_row line ;;
      rs <- parse_all lines' ;;
      Ok (r :: rs)
  end.

(** The values of the rows of one year, in the order of the rows. *)
Definition samples (rows : list (Z * Float.float)) (year : Z)
  : list Float.float :=
  map snd (filter (fun r => fst r =? year) rows).

(** The appends of the first loop, once every row is converted. *)
Definition group (rows : list (Z * Float.float)) (d : table) : table :=
  fold_left (fun d r => append d (fst r) (PyFloat (snd r))) rows d.

(** The first and last values of the years of the range, as the second loop
    leaves them in [e]. *)
Definition ends_of (d : table) (e : dict (value * value)) (years : list Z)
  : dict (value * value) :=
  fold_left
    (fun e y => set e y (hd PyNone (items d y), last (items d y) PyNone))
    years e.

(** The data rows of a response, converted. *)
Definition rows_of (text : string) : result (list (Z * Float.float)) :=
  lines <- data_rows (Str.split_on NL text) ;;
  parse_all lines.

Section Acceptance.
Variables (start end_ : Z).

(** The rows the script goes through without raising: one row in each of the
    two boundary years, at least one in every year of the range. *)
Definition accepted (rows : list (Z * Float.float)) : Prop :=
  len (samples rows (start - 1)) = 1 /\
  len (samples rows (end_ + 1)) = 1 /\
  (forall y, start <= y <= end_ -> samples rows y <> []) /\
  start - 1 <> end_ + 1.

(** The table dumped for accepted rows: the years of the rows but the two
    boundary years, each once; a year of the range holds its own values
    between the last value of the year before and the first value of the
    year after; any other year holds its own values only. *)
Definition table_of (rows : list (Z * Float.float)) (t : table) : Prop :=
  NoDup (keys t) /\
  (forall k, In k (keys t) <->
             In k (map fst rows) /\ k <> start - 1 /\ k <> end_ + 1) /\
  (forall y, start <= y <= end_ ->
     exists a b,
       getitem (samples rows (y - 1)) (-1) = Ok a /\
       getitem (samples rows (y + 1)) 0 = Ok b /\
       get t y =
         Some (PyFloat a :: map PyFloat (samples rows y) ++ [PyFloat b])) /\
  (forall k l, ~ start <= k <= end_ -> get t k = Some l ->
     l = map PyFloat (samples rows k)).
End Acceptance.

(** ** The notions of the specification *)

(** The conversion as the specification words it (section 4.3):
    [eot = (hour + (minute + second/60)/60 - 12) * 60], rounded to 2 decimal
    places. *)
Definition spec_eot (hour minute second : Float.float) : Float.float :=
  let sixty := Float.of_Z 60 in
  let minutes := Float.add minute (Float.div second sixty) in
  let hours := Float.add hour (Float.div minutes sixty) in
  Float.round (Float.mul (Float.sub hours (Float.of_Z 12)) sixty) 2.

(** [-20.0 <= x <= 20.0] (section 8). *)
Definition in_range (x : Float.float) : bool :=
  Float.leb (Float.of_Z (-20)) x && Float.leb x (Float.of_Z 20).

(** The Gregorian calendar (section 8); the script itself has none. *)
Definition is_leap (y : Z) : bool :=
  (y mod 4 =? 0) && (negb (y mod 100 =? 0) || (y mod 400 =? 0)).

Definition days_in_year (y : Z) : Z := if is_leap y then 366 else 365.

Definition days_in_month (y : Z) (m : nat) : nat :=
  match m with
  | 1 | 3 | 5 | 7 | 8 | 10 | 12 => 31
  | 4 | 6 | 9 | 11 => 30
  | 2 => if is_leap y then 29 else 28
  | _ => 0
  end%nat.

(** A calendar day: year, month, day of the month. *)
Definition date : Set := Z * nat * nat.

Definition year_of (d : date) : Z := fst (fst d).

Definition days_of (y : Z) : list date :=
  flat_map (fun m => map (fun d => (y, m, d)) (seq 1 (days_in_month y m)))
    (seq 1 12).

(** The days of the requested window, from the last day of [start - 1] to
    the first day of [end + 1]. *)
Definition window (start end_ : Z) : list date :=
  (start - 1, 12%nat, 31%nat)
  :: flat_map days_of (range start (end_ + 1)) ++ [(end_ + 1, 1%nat, 1%nat)].

(** One data row for every day of the window: the years of the rows are
    the years of the days. *)
Definition one_row_per_day (start end_ : Z) (rows : list (Z * Float.float))
  : Prop :=
  Permutation (map fst rows) (map year_of (window start end_)).

(** ** Sample responses

    Responses of the shape the service gives, cut down to the first and the
    last day of every year from 2000 to 2100, between the last day of 1999
    and the first day of 2101. *)

Definition header : list string :=
  ["API VERSION: 1.2";
   "API SOURCE: NASA/JPL Horizons API";
   "";
   " Date__(UT)__HR:MN     L_Ap_SOL_Time";
   "************************************"].

Definition footer : list string :=
  ["*******************************************************************************";
   ""].

Definition row_1999 : string := " 1999-Dec-31 12:00 *m  11 57 11.8441".

Definition rows_2000 : list string :=
  [" 2000-Jan-01 12:00 *m  11 56 43.2074";
   " 2000-Dec-31 12:00 *m  11 57 06.5180"].

Definition rows_2001_2100 : list string := [
  " 2001-Jan-01 12:00 *m  11 56 43.2471";
  " 2001-Dec-31 12:00 *m  11 57 11.0791";
  " 2002-Jan-01 12:00 *m  11 56 39.8779";
  " 2002-Dec-31 12:00 *m  11 57 06.5991";
  " 2003-Jan-01 12:00 *m  11 56 47.0950";
  " 2003-Dec-31 12:00 *m  11 57 13.3517";
  " 2004-Jan-01 12:00 *m  11 56 38.1408";
  " 2004-Dec-31 12:00 *m  11 57 11.6851";
  " 2005-Jan-01 12:00 *m  11 56 39.3943";
  " 2005-Dec-31 12:00 *m  11 57 06.9028";
  " 2006-Jan-01 12:00 *m  11 56 44.0968";
  " 2006-Dec-31 12:00 *m  11 57 14.2028";
  " 2007-Jan-01 12:00 *m  11 56 41.9551";
  " 2007-Dec-31 12:00 *m  11 57 05.9455";
  " 2008-Jan-01 12:00 *m  11 56 47.6499";
  " 2008-Dec-31 12:00 *m  11 57 05.3622";
  " 2009-Jan-01 12:00 *m  11 56 38.9120";
  " 2009-Dec-31 12:00 *m  11 57 07.4744";
  " 2010-Jan-01 12:00 *m  11 56 44.2363";
  " 2010-Dec-31 12:00 *m  11 57 13.1929";
  " 2011-Jan-01 12:00 *m  11 56 47.5054";
  " 2011-Dec-31 12:00 *m  11 57 13.2961";
  " 2012-Jan-01 12:00 *m  11 56 39.9528";
  " 2012-Dec-31 12:00 *m  11 57 14.3078";
  " 2013-Jan-01 12:00 *m  11 56 43.1596";
  " 2013-Dec-31 12:00 *m  11 57 13.1028";
  " 2014-Jan-01 12:00 *m  11 56 47.0976";
  " 2014-Dec-31 12:00 *m  11 57 14.3374";
  " 2015-Jan-01 12:00 *m  11 56 45.8711";
  " 2015-Dec-31 12:00 *m  11 57 11.5146";
  " 2016-Jan-01 12:00 *m  11 56 45.9593";
  " 2016-Dec-31 12:00 *m  11 57 12.5924";
  " 2017-Jan-01 12:00 *m  11 56 42.4070";
  " 2017-Dec-31 12:00 *m  11 57 07.3999";
  " 2018-Jan-01 12:00 *m  11 56 39.9411";
  " 2018-Dec-31 12:00 *m  11 57 09.8604";
  " 2019-Jan-01 12:00 *m  11 56 45.5627";
  " 2019-Dec-31 12:00 *m  11 57 12.4717";
  " 2020-Jan-01 12:00 *m  11 56 47.1199";
  " 2020-Dec-31 12:00 *m  11 57 06.8387";
  " 2021-Jan-01 12:00 *m  11 56 44.2702";
  " 2021-Dec-31 12:00 *m  11 57 10.2490";
  " 2022-Jan-01 12:00 *m  11 56 45.6909";
  " 2022-Dec-31 12:00 *m  11 57 05.1271";
  " 2023-Jan-01 12:00 *m  11 56 46.9388";
  " 2023-Dec-31 12:00 *m  11 57 10.5572";
  " 2024-Jan-01 12:00 *m  11 56 43.9738";
  " 2024-Dec-31 12:00 *m  11 57 12.9501";
  " 2025-Jan-01 12:00 *m  11 56 45.1126";
  " 2025-Dec-31 12:00 *m  11 57 06.4422";
  " 2026-Jan-01 12:00 *m  11 56 45.1064";
  " 2026-Dec-31 12:00 *m  11 57 05.5072";
  " 2027-Jan-01 12:00 *m  11 56 47.7301";
  " 2027-Dec-31 12:00 *m  11 57 09.6320";
  " 2028-Jan-01 12:00 *m  11 56 43.0369";
  " 2028-Dec-31 12:00 *m  11 57 12.5823";
  " 2029-Jan-01 12:00 *m  11 56 40.1918";
  " 2029-Dec-31 12:00 *m  11 57 12.0965";
  " 2030-Jan-01 12:00 *m  11 56 41.4709";
  " 2030-Dec-31 12:00 *m  11 57 07.4056";
  " 2031-Jan-01 12:00 *m  11 56 44.6405";
  " 2031-Dec-31 12:00 *m  11 57 12.1320";
  " 2032-Jan-01 12:00 *m  11 56 40.7359";
  " 2032-Dec-31 12:00 *m  11 57 11.9002";
  " 2033-Jan-01 12:00 *m  11 56 42.2243";
  " 2033-Dec-31 12:00 *m  11 57 11.9014";
  " 2034-Jan-01 12:00 *m  11 56 42.6804";
  " 2034-Dec-31 12:00 *m  11 57 10.6233";
  " 2035-Jan-01 12:00 *m  11 56 41.2472";
  " 2035-Dec-31 12:00 *m  11 57 06.2887";
  " 2036-Jan-01 12:00 *m  11 56 40.3800";
  " 2036-Dec-31 12:00 *m  11 57 08.0197";
  " 2037-Jan-01 12:00 *m  11 56 45.9652";
  " 2037-Dec-31 12:00 *m  11 57 07.4304";
  " 2038-Jan-01 12:00 *m  11 56 42.0067";
  " 2038-Dec-31 12:00 *m  11 57 07.6864";
  " 2039-Jan-01 12:00 *m  11 56 46.6049";
  " 2039-Dec-31 12:00 *m  11 57 14.9278";
  " 2040-Jan-01 12:00 *m  11 56 43.2056";
  " 2040-Dec-31 12:00 *m  11 57 13.0884";
  " 2041-Jan-01 12:00 *m  11 56 45.9163";
  " 2041-Dec-31 12:00 *m  11 57 11.6521";
  " 2042-Jan-01 12:00 *m  11 56 44.6457";
  " 2042-Dec-31 12:00 *m  11 57 06.7889";
  " 2043-Jan-01 12:00 *m  11 56 44.1019";
  " 2043-Dec-31 12:00 *m  11 57 08.1103";
  " 2044-Jan-01 12:00 *m  11 56 41.7219";
  " 2044-Dec-31 12:00 *m  11 57 07.1801";
  " 2045-Jan-01 12:00 *m  11 56 43.9842";
  " 2045-Dec-31 12:00 *m  11 57 05.1677";
  " 2046-Jan-01 12:00 *m  11 56 38.9286";
  " 2046-Dec-31 12:00 *m  11 57 07.8791";
  " 2047-Jan-01 12:00 *m  11 56 39.5957";
  " 2047-Dec-31 12:00 *m  11 57 14.0417";
  " 2048-Jan-01 12:00 *m  11 56 39.3407";
  " 2048-Dec-31 12:00 *m  11 57 14.6164";
  " 2049-Jan-01 12:00 *m  11 56 40.4132";
  " 2049-Dec-31 12:00 *m  11 57 10.9867";
  " 2050-Jan-01 12:00 *m  11 56 43.7768";
  " 2050-Dec-31 12:00 *m  11 57 06.1889";
  " 2051-Jan-01 12:00 *m  11 56 45.7634";
  " 2051-Dec-31 12:00 *m  11 57 12.7927";
  " 2052-Jan-01 12:00 *m  11 56 42.1407";
  " 2052-Dec-31 12:00 *m  11 57 07.1674";
  " 2053-Jan-01 12:00 *m  11 56 43.4337";
  " 2053-Dec-31 12:00 *m  11 57 12.2645";
  " 2054-Jan-01 12:00 *m  11 56 46.0378";
  " 2054-Dec-31 12:00 *m  11 57 08.8654";
  " 2055-Jan-01 12:00 *m  11 56 43.2401";
  " 2055-Dec-31 12:00 *m  11 57 13.0443";
  " 2056-Jan-01 12:00 *m  11 56 46.4883";
  " 2056-Dec-31 12:00 *m  11 57 06.4278";
  " 2057-Jan-01 12:00 *m  11 56 46.6008";
  " 2057-Dec-31 12:00 *m  11 57 07.5827";
  " 2058-Jan-01 12:00 *m  11 56 41.8725";
  " 2058-Dec-31 12:00 *m  11 57 13.8236";
  " 2059-Jan-01 12:00 *m  11 56 43.3654";
  " 2059-Dec-31 12:00 *m  11 57 14.3197";
  " 2060-Jan-01 12:00 *m  11 56 41.6564";
  " 2060-Dec-31 12:00 *m  11 57 08.3275";
  " 2061-Jan-01 12:00 *m  11 56 46.8073";
  " 2061-Dec-31 12:00 *m  11 57 10.0474";
  " 2062-Jan-01 12:00 *m  11 56 38.4577";
  " 2062-Dec-31 12:00 *m  11 57 12.4246";
  " 2063-Jan-01 12:00 *m  11 56 41.9914";
  " 2063-Dec-31 12:00 *m  11 57 10.7327";
  " 2064-Jan-01 12:00 *m  11 56 43.5974";
  " 2064-Dec-31 12:00 *m  11 57 06.3612";
  " 2065-Jan-01 12:00 *m  11 56 39.3716";
  " 2065-Dec-31 12:00 *m  11 57 12.3222";
  " 2066-Jan-01 12:00 *m  11 56 43.3348";
  " 2066-Dec-31 12:00 *m  11 57 12.9998";
  " 2067-Jan-01 12:00 *m  11 56 38.7855";
  " 2067-Dec-31 12:00 *m  11 57 10.1389";
  " 2068-Jan-01 12:00 *m  11 56 39.6365";
  " 2068-Dec-31 12:00 *m  11 57 08.7832";
  " 2069-Jan-01 12:00 *m  11 56 40.7109";
  " 2069-Dec-31 12:00 *m  11 57 10.1421";
  " 2070-Jan-01 12:00 *m  11 56 44.7588";
  " 2070-Dec-31 12:00 *m  11 57 11.1391";
  " 2071-Jan-01 12:00 *m  11 56 40.2785";
  " 2071-Dec-31 12:00 *m  11 57 07.0451";
  " 2072-Jan-01 12:00 *m  11 56 40.9679";
  " 2072-Dec-31 12:00 *m  11 57 12.2394";
  " 2073-Jan-01 12:00 *m  11 56 47.9762";
  " 2073-Dec-31 12:00 *m  11 57 12.5741";
  " 2074-Jan-01 12:00 *m  11 56 40.8989";
  " 2074-Dec-31 12:00 *m  11 57 13.2146";
  " 2075-Jan-01 12:00 *m  11 56 38.0233";
  " 2075-Dec-31 12:00 *m  11 57 06.8627";
  " 2076-Jan-01 12:00 *m  11 56 40.7107";
  " 2076-Dec-31 12:00 *m  11 57 08.3457";
  " 2077-Jan-01 12:00 *m  11 56 38.4126";
  " 2077-Dec-31 12:00 *m  11 57 08.4799";
  " 2078-Jan-01 12:00 *m  11 56 46.3940";
  " 2078-Dec-31 12:00 *m  11 57 14.5341";
  " 2079-Jan-01 12:00 *m  11 56 42.8918";
  " 2079-Dec-31 12:00 *m  11 57 11.2147";
  " 2080-Jan-01 12:00 *m  11 56 38.5796";
  " 2080-Dec-31 12:00 *m  11 57 12.9557";
  " 2081-Jan-01 12:00 *m  11 56 46.6891";
  " 2081-Dec-31 12:00 *m  11 57 13.2142";
  " 2082-Jan-01 12:00 *m  11 56 46.2487";
  " 2082-Dec-31 12:00 *m  11 57 13.8364";
  " 2083-Jan-01 12:00 *m  11 56 38.7211";
  " 2083-Dec-31 12:00 *m  11 57 07.9970";
  " 2084-Jan-01 12:00 *m  11 56 38.2454";
  " 2084-Dec-31 12:00 *m  11 57 07.2319";
  " 2085-Jan-01 12:00 *m  11 56 45.1971";
  " 2085-Dec-31 12:00 *m  11 57 13.1011";
  " 2086-Jan-01 12:00 *m  11 56 43.8492";
  " 2086-Dec-31 12:00 *m  11 57 13.9100";
  " 2087-Jan-01 12:00 *m  11 56 45.1738";
  " 2087-Dec-31 12:00 *m  11 57 13.0930";
  " 2088-Jan-01 12:00 *m  11 56 41.3134";
  " 2088-Dec-31 12:00 *m  11 57 09.0691";
  " 2089-Jan-01 12:00 *m  11 56 39.8318";
  " 2089-Dec-31 12:00 *m  11 57 12.9203";
  " 2090-Jan-01 12:00 *m  11 56 38.1038";
  " 2090-Dec-31 12:00 *m  11 57 12.5334";
  " 2091-Jan-01 12:00 *m  11 56 47.8282";
  " 2091-Dec-31 12:00 *m  11 57 14.8391";
  " 2092-Jan-01 12:00 *m  11 56 41.4541";
  " 2092-Dec-31 12:00 *m  11 57 12.8325";
  " 2093-Jan-01 12:00 *m  11 56 46.7832";
  " 2093-Dec-31 12:00 *m  11 57 13.4057";
  " 2094-Jan-01 12:00 *m  11 56 46.4253";
  " 2094-Dec-31 12:00 *m  11 57 13.3319";
  " 2095-Jan-01 12:00 *m  11 56 45.2246";
  " 2095-Dec-31 12:00 *m  11 57 11.1992";
  " 2096-Jan-01 12:00 *m  11 56 44.7243";
  " 2096-Dec-31 12:00 *m  11 57 10.1188";
  " 2097-Jan-01 12:00 *m  11 56 41.7017";
  " 2097-Dec-31 12:00 *m  11 57 06.3484";
  " 2098-Jan-01 12:00 *m  11 56 42.2004";
  " 2098-Dec-31 12:00 *m  11 57 07.5999";
  " 2099-Jan-01 12:00 *m  11 56 40.4146";
  " 2099-Dec-31 12:00 *m  11 57 07.7663";
  " 2100-Jan-01 12:00 *m  11 56 41.1542";
  " 2100-Dec-31 12:00 *m  11 57 09.3426"
].

Definition row_2101 : string := " 2101-Jan-01 12:00 *m  11 56 40.8494".

(** The response body with the given data rows. *)
Definition response (rows : list string) : string :=
  String.concat (String NL "")
    (header ++ SOE :: rows ++ EOE :: footer).

Definition response_ok : string :=
  response (row_1999 :: rows_2000 ++ rows_2001_2100 ++ [row_2101]).

(** One more row, of the day before the window. *)
Definition response_extra_year : string :=
  response (" 1998-Dec-31 12:00 *m  11 57 12.3062"
            :: row_1999 :: rows_2000 ++ rows_2001_2100 ++ [row_2101]).


(** An apparent solar time of midnight on the first day of 2000. *)
Definition response_midnight : string :=
  response (row_1999
            :: " 2000-Jan-01 12:00 *m  00 00 00.0000"
            :: " 2000-Dec-31 12:00 *m  11 57 06.5180"
            :: rows_2001_2100 ++ [row_2101]).

(** Two rows in the boundary year before the range. *)
Definition response_two_1999 : string :=
  response (" 1999-Dec-30 12:00 *m  11 57 40.9105"
            :: row_1999 :: rows_2000 ++ rows_2001_2100 ++ [row_2101]).

(** A response with one row for every day of the window of the single year
    2000: the rows are written from the days. *)
Definition month_name (m : nat) : string :=
  nth (m - 1)
    ["Jan"; "Feb"; "Mar"; "Apr"; "May"; "Jun";
     "Jul"; "Aug"; "Sep"; "Oct"; "Nov"; "Dec"] "".

Definition two_digits (n : nat) : string :=
  let s := NilZero.string_of_uint (Nat.to_uint n) in
  if (n <? 10)%nat then "0" ++ s else s.

Definition day_row (d : date) : string :=
  let '(y, m, k) := d in
  " " ++ NilZero.string_of_int (Z.to_int y) ++ "-" ++ month_name m ++ "-"
  ++ two_digits k ++ " 12:00 *m  11 57 11.8441".

Definition response_year_2000 : string :=
  response (map day_row (window 2000 2000)).

(** The years of a list in the order in which they first occur: the order
    in which the first loop creates the keys of the table. *)
Fixpoint first_seen (years : list Z) : list Z :=
  match years with
  | [] => []
  | y :: years' => y :: filter (fun k => negb (k =? y)) (first_seen years')
  end.

(** Whether the years of a list never decrease. *)
Fixpoint nondecreasing (years : list Z) : bool :=
  match years with
  | y :: (y' :: _) as years' => (y <=? y') && nondecreasing years'
  | _ => true
  end.

(** A response in which the year 2000 has no row. *)
Definition response_gap : string :=
  response (row_1999 :: rows_2001_2100 ++ [row_2101]).

(** A response whose sentinel lines are exchanged. *)
Definition response_reversed : string :=
  String.concat (String NL "")
    (header ++ EOE :: (row_1999 :: rows_2000) ++ SOE :: footer).

(** * Properties *)

(** ** The result monad *)

Lemma bind_Ok {A B : Type} (r : result A) (k : A -> result B) (b : B) :
  bind r k = Ok b -> exists a, r = Ok a /\ k a = Ok b.
Proof.
  destruct r as [a|e]; simpl; intros H; [eauto | discriminate].
Qed.

Ltac inv_bind H :=
  let a := fresh "a" in
  let Ha := fresh "H" a in
  apply bind_Ok in H; destruct H as (a & Ha & H).

(** ** Dictionaries *)

Section DictFacts.
Context {V : Type}.
Implicit Types (d : dict V) (k : Z) (v : V).

Lemma get_set_same d k v : get (set d k v) k = Some v.
Proof.
  induction d as [|[k' v'] d IH]; simpl.
  - now rewrite Z.eqb_refl.
  - destruct (k' =? k) eqn:E; simpl.
    + now rewrite Z.eqb_refl.
    + now rewrite E.
Qed.

Lemma get_set_other d k k' v : k' <> k -> get (set d k v) k' = get d k'.
Proof.
  intros Hne. induction d as [|[k0 v0] d IH]; simpl.
  - destruct (k =? k') eqn:E; [apply Z.eqb_eq in E; congruence | reflexivity].
  - destruct (k0 =? k) eqn:E; simpl.
    + apply Z.eqb_eq in E; subst k0.
      destruct (k =? k') eqn:E'; [apply Z.eqb_eq in E'; congruence|].
      reflexivity.
    + now rewrite IH.
Qed.

Lemma set_set d k v v' : set (set d k v) k v' = set d k v'.
Proof.
  induction d as [|[k0 v0] d IH]; simpl.
  - now rewrite Z.eqb_refl.
  - destruct (k0 =? k) eqn:E; simpl.
    + now rewrite Z.eqb_refl.
    + now rewrite E, IH.
Qed.

Lemma get_In_keys d k : In k (keys d) <-> get d k <> None.
Proof.
  induction d as [|[k0 v0] d IH]; simpl.
  - split; [tauto | congruence].
  - destruct (k0 =? k) eqn:E.
    + apply Z.eqb_eq in E. split; [congruence | auto].
    + apply Z.eqb_neq in E. rewrite <- IH. tauto.
Qed.

Lemma get_Some_In_keys d k v : get d k = Some v -> In k (keys d).
Proof. intros H. apply get_In_keys. congruence. Qed.

Lemma get_None_not_In d k : get d k = None <-> ~ In k (keys d).
Proof.
  rewrite get_In_keys. destruct (get d k) as [v|]; split; intros H.
  - discriminate.
  - exfalso. apply H. discriminate.
  - intros H'. now apply H'.
  - reflexivity.
Qed.

Lemma keys_set_present d k v : In k (keys d) -> keys (set d k v) = keys d.
Proof.
  induction d as [|[k0 v0] d IH]; simpl; [tauto|].
  intros H. destruct (k0 =? k) eqn:E; simpl.
  - apply Z.eqb_eq in E. now subst.
  - apply Z.eqb_neq in E. f_equal. apply IH. tauto.
Qed.

Lemma keys_set_absent d k v :
  ~ In k (keys d) -> keys (set d k v) = keys d ++ [k].
Proof.
  induction d as [|[k0 v0] d IH]; simpl; [reflexivity|].
  intros H. destruct (k0 =? k) eqn:E; simpl.
  - apply Z.eqb_eq in E. tauto.
  - f_equal. apply IH. tauto.
Qed.

Lemma In_keys_set d k v k' :
  In k' (keys (set d k v)) <-> In k' (keys d) \/ k' = k.
Proof.
  rewrite !get_In_keys. destruct (Z.eq_dec k' k) as [->|Hne].
  - rewrite get_set_same. split; [auto | congruence].
  - rewrite get_set_other by assumption. tauto.
Qed.

Lemma NoDup_keys_set d k v : NoDup (keys d) -> NoDup (keys (set d k v)).
Proof.
  intros Hnd. destruct (in_dec Z.eq_dec k (keys d)) as [Hin|Hout].
  - now rewrite keys_set_present.
  - rewrite keys_set_absent by assumption.
    apply NoDup_app; [assumption | |].
    + constructor; [intros [] | constructor].
    + intros x Hx [<-|[]]. contradiction.
Qed.

Lemma get_remove d k k' :
  get (remove d k) k' = if k' =? k then None else get d k'.
Proof.
  unfold remove. induction d as [|[k0 v0] d IH]; simpl.
  - now destruct (k' =? k).
  - destruct (k0 =? k) eqn:E; simpl.
    + rewrite IH. apply Z.eqb_eq in E; subst k0.
      destruct (k' =? k) eqn:E'; [reflexivity|].
      rewrite Z.eqb_sym, E'. reflexivity.
    + rewrite IH. destruct (k0 =? k') eqn:E'; [|reflexivity].
      apply Z.eqb_eq in E'; subst k0. now rewrite E.
Qed.

Lemma In_keys_remove d k k' :
  In k' (keys (remove d k)) <-> In k' (keys d) /\ k' <> k.
Proof.
  rewrite !get_In_keys, get_remove.
  destruct (k' =? k) eqn:E.
  - apply Z.eqb_eq in E. split; [congruence | tauto].
  - apply Z.eqb_neq in E. tauto.
Qed.

Lemma NoDup_keys_remove d k : NoDup (keys d) -> NoDup (keys (remove d k)).
Proof.
  unfold remove, keys. induction d as [|[k0 v0] d IH]; simpl; intros Hnd.
  - constructor.
  - inversion Hnd as [|? ? Hout Hnd']; subst.
    destruct (k0 =? k); simpl; [now apply IH|].
    constructor; [|now apply IH].
    intros Hin. apply Hout.
    apply in_map_iff in Hin. destruct Hin as (kv & Hk & Hin).
    apply filter_In in Hin. apply in_map_iff. exists kv. tauto.
Qed.
End DictFacts.

(** ** Lists: indexing, slicing, searching *)

Section ListFacts.
Context {A : Type}.
Implicit Types (l : list A) (i j k : Z).

Lemma len_nonneg l : 0 <= len l.
Proof. unfold len. lia. Qed.

Lemma len_app l1 l2 : len (l1 ++ l2) = len l1 + len l2.
Proof. unfold len. rewrite length_app. lia. Qed.

Lemma len_cons (x : A) l : len (x :: l) = len l + 1.
Proof. unfold len. simpl. lia. Qed.

Lemma getitem_nonneg l i :
  0 <= i ->
  getitem l i =
    match nth_error l (Z.to_nat i) with
    | Some a => Ok a
    | None => Raise IndexError
    end.
Proof.
  intros Hi. unfold getitem.
  destruct (i <? 0) eqn:E; [apply Z.ltb_lt in E; lia|].
  now rewrite E.
Qed.

Lemma getitem_neg l i :
  i < 0 ->
  getitem l i =
    if i + len l <? 0 then Raise IndexError
    else
      match nth_error l (Z.to_nat (i + len l)) with
      | Some a => Ok a
      | None => Raise IndexError
      end.
Proof.
  intros Hi. unfold getitem.
  destruct (i <? 0) eqn:E; [reflexivity | apply Z.ltb_ge in E; lia].
Qed.

Lemma getitem_nil i : getitem (@nil A) i = Raise IndexError.
Proof.
  unfold getitem. destruct (_ <? 0); [reflexivity|].
  now destruct (Z.to_nat _).
Qed.

Lemma getitem_0 l :
  getitem l 0 = match l with x :: _ => Ok x | [] => Raise IndexError end.
Proof. now destruct l. Qed.

Lemma getitem_app_l l1 l2 i :
  0 <= i < len l1 -> getitem (l1 ++ l2) i = getitem l1 i.
Proof.
  intros Hi. rewrite !getitem_nonneg by lia.
  rewrite nth_error_app1; [reflexivity | unfold len in Hi; lia].
Qed.

Lemma getitem_app_r l1 l2 i :
  - len l2 <= i < 0 -> getitem (l1 ++ l2) i = getitem l2 i.
Proof.
  intros Hi. rewrite !getitem_neg by lia. rewrite len_app.
  pose proof (len_nonneg l1) as H1.
  destruct (i + (len l1 + len l2) <? 0) eqn:E1; [apply Z.ltb_lt in E1; lia|].
  destruct (i + len l2 <? 0) eqn:E2; [apply Z.ltb_lt in E2; lia|].
  rewrite nth_error_app2 by (unfold len in *; lia).
  replace (Z.to_nat (i + (len l1 + len l2)) - List.length l1)%nat
    with (Z.to_nat (i + len l2)) by (unfold len in *; lia).
  reflexivity.
Qed.

Lemma getitem_last l (x : A) : getitem (l ++ [x]) (-1) = Ok x.
Proof. rewrite getitem_app_r; [reflexivity | unfold len; simpl; lia]. Qed.

Lemma getitem_single (x : A) i :
  getitem [x] i = if (i =? 0) || (i =? -1) then Ok x else Raise IndexError.
Proof.
  destruct (Z_lt_le_dec i 0) as [Hi|Hi].
  - rewrite getitem_neg by assumption. change (len [x]) with 1.
    destruct (i =? 0) eqn:E0; [apply Z.eqb_eq in E0; lia|].
    destruct (i + 1 <? 0) eqn:E'.
    + apply Z.ltb_lt in E'.
      destruct (i =? -1) eqn:E1; [apply Z.eqb_eq in E1; lia|]. reflexivity.
    + apply Z.ltb_ge in E'. assert (i = -1) as -> by lia. reflexivity.
  - rewrite getitem_nonneg by assumption.
    destruct (i =? -1) eqn:E1; [apply Z.eqb_eq in E1; lia|].
    destruct (i =? 0) eqn:E0.
    + apply Z.eqb_eq in E0. now subst.
    + apply Z.eqb_neq in E0. simpl.
      destruct (Z.to_nat i) as [|n] eqn:En; [exfalso; lia|]. now destruct n.
Qed.

(** A list with a first element has a last one, and conversely. *)
Lemma getitem_m1 l :
  getitem l (-1) =
    match rev l with x :: _ => Ok x | [] => Raise IndexError end.
Proof.
  destruct l as [|a l'] using rev_ind; [reflexivity|].
  rewrite getitem_last, rev_app_distr. reflexivity.
Qed.

Lemma getitem_0_Ok l : l <> [] -> exists x, getitem l 0 = Ok x.
Proof. destruct l as [|x l]; [congruence | intros _; now exists x]. Qed.

Lemma getitem_m1_Ok l : l <> [] -> exists x, getitem l (-1) = Ok x.
Proof.
  destruct l as [|a l'] using rev_ind; [congruence|].
  intros _. rewrite getitem_last. eauto.
Qed.

Lemma getitem_Ok_nonempty l i (x : A) : getitem l i = Ok x -> l <> [].
Proof. intros H ->. rewrite getitem_nil in H. discriminate. Qed.

Lemma getitem_In l i (x : A) : getitem l i = Ok x -> In x l.
Proof.
  unfold getitem. destruct (_ <? 0); [discriminate|].
  destruct (nth_error l _) eqn:E; [|discriminate].
  intros [= <-]. eapply nth_error_In; eauto.
Qed.

(** [l[1:-1]] drops the first and the last element. *)
Lemma slice_inner (a b : A) l : slice (a :: l ++ [b]) 1 (-1) = l.
Proof.
  assert (Hlen : len (a :: l ++ [b]) = len l + 2)
    by (rewrite len_cons, len_app; change (len [b]) with 1; lia).
  pose proof (len_nonneg l) as Hl.
  assert (H1 : clamp (a :: l ++ [b]) 1 = 1%nat).
  { unfold clamp. change (1 <? 0) with false. cbv iota. rewrite Hlen. lia. }
  assert (H2 : clamp (a :: l ++ [b]) (-1) = S (List.length l)).
  { unfold clamp. change (-1 <? 0) with true. cbv iota. rewrite Hlen.
    unfold len. lia. }
  unfold slice. rewrite H1, H2.
  replace (S (List.length l) - 1)%nat with (List.length l) by lia.
  change (skipn 1 (a :: l ++ [b])) with (l ++ [b]).
  rewrite firstn_app, firstn_all, Nat.sub_diag. simpl.
  apply app_nil_r.
Qed.
End ListFacts.

Lemma getitem_map {A B : Type} (f : A -> B) (l : list A) (i : Z) :
  getitem (map f l) i =
    match getitem l i with Ok a => Ok (f a) | Raise e => Raise e end.
Proof.
  unfold getitem, len. rewrite length_map.
  destruct (_ <? 0); [reflexivity|].
  rewrite nth_error_map. now destruct (nth_error l _).
Qed.

(** [range] *)

Lemma In_range (a b y : Z) : In y (range a b) <-> a <= y < b.
Proof.
  unfold range. rewrite in_map_iff. split.
  - intros (k & <- & Hk). apply in_seq in Hk. lia.
  - intros H. exists (Z.to_nat (y - a)). split; [lia|].
    apply in_seq. lia.
Qed.

Lemma NoDup_range (a b : Z) : NoDup (range a b).
Proof.
  unfold range. generalize (Z.to_nat (b - a)) as n. intros n.
  generalize 0%nat as s. induction n as [|n IH]; intros s; simpl.
  - constructor.
  - constructor; [|apply IH].
    rewrite in_map_iff. intros (k & Hk & Hin). apply in_seq in Hin. lia.
Qed.

(** ** The table: reading, appending, grouping *)

Lemma getdefault_present {A : Type} (d : dict (list A)) (k : Z) (l : list A) :
  get d k = Some l -> getdefault d k = (l, d).
Proof. unfold getdefault. now intros ->. Qed.

Lemma items_Some (d : table) (k : Z) (l : list value) :
  get d k = Some l -> items d k = l.
Proof. unfold items. now intros ->. Qed.

Lemma items_nonempty_In (d : table) (k : Z) :
  items d k <> [] -> In k (keys d).
Proof.
  unfold items. destruct (get d k) eqn:E; [|congruence].
  intros _. eapply get_Some_In_keys; eauto.
Qed.

Lemma get_items (d : table) (k : Z) :
  In k (keys d) -> get d k = Some (items d k).
Proof.
  intros H. apply get_In_keys in H. unfold items.
  destruct (get d k); congruence.
Qed.

Lemma items_set (d : table) (k k' : Z) (l : list value) :
  items (set d k l) k' = if k' =? k then l else items d k'.
Proof.
  unfold items. destruct (k' =? k) eqn:E.
  - apply Z.eqb_eq in E. subst. now rewrite get_set_same.
  - apply Z.eqb_neq in E. now rewrite get_set_other.
Qed.

Lemma append_set (d : table) (y : Z) (v : value) :
  append d y v = set d y (items d y ++ [v]).
Proof.
  unfold append, getdefault, items.
  destruct (get d y); [reflexivity | apply set_set].
Qed.

Lemma for_each_row_step (lines : list string) (d : table) :
  for_each lines row_step d = (rows <- parse_all lines ;; Ok (group rows d)).
Proof.
  revert d. induction lines as [|line lines IH]; intros d; simpl.
  - reflexivity.
  - unfold row_step at 1. destruct (parse_row line) as [[y v]|e]; simpl.
    + rewrite IH. now destruct (parse_all lines).
    + reflexivity.
Qed.

Lemma items_group rows (d : table) (y : Z) :
  items (group rows d) y = items d y ++ map PyFloat (samples rows y).
Proof.
  revert d. induction rows as [|[y0 v0] rows IH]; intros d.
  - simpl. now rewrite app_nil_r.
  - change (group ((y0, v0) :: rows) d)
      with (group rows (append d y0 (PyFloat v0))).
    rewrite IH, append_set, items_set. unfold samples. simpl.
    rewrite (Z.eqb_sym y y0).
    destruct (y0 =? y) eqn:E; simpl.
    + apply Z.eqb_eq in E. subst. now rewrite <- app_assoc.
    + reflexivity.
Qed.

Lemma In_keys_group rows (d : table) (k : Z) :
  In k (keys (group rows d)) <-> In k (keys d) \/ In k (map fst rows).
Proof.
  revert d. induction rows as [|[y0 v0] rows IH]; intros d.
  - simpl. tauto.
  - change (group ((y0, v0) :: rows) d)
      with (group rows (append d y0 (PyFloat v0))).
    rewrite IH, append_set, In_keys_set. simpl. intuition congruence.
Qed.

Lemma NoDup_keys_group rows (d : table) :
  NoDup (keys d) -> NoDup (keys (group rows d)).
Proof.
  revert d. induction rows as [|[y0 v0] rows IH]; intros d Hnd.
  - assumption.
  - change (group ((y0, v0) :: rows) d)
      with (group rows (append d y0 (PyFloat v0))).
    apply IH. rewrite append_set. now apply NoDup_keys_set.
Qed.

Lemma samples_nonempty rows (y : Z) :
  samples rows y <> [] <-> In y (map fst rows).
Proof.
  unfold samples. induction rows as [|[y0 v0] rows IH]; simpl.
  - tauto.
  - destruct (y0 =? y) eqn:E; simpl.
    + apply Z.eqb_eq in E. split; [auto | discriminate].
    + apply Z.eqb_neq in E. rewrite IH. tauto.
Qed.

Lemma get_group rows (y : Z) :
  get (group rows []) y =
    match samples rows y with
    | [] => None
    | l => Some (map PyFloat l)
    end.
Proof.
  pose proof (items_group rows [] y) as Hi.
  pose proof (In_keys_group rows [] y) as Hk.
  pose proof (samples_nonempty rows y) as Hs.
  simpl in Hi, Hk. destruct (samples rows y) as [|v l] eqn:E.
  - apply get_None_not_In. rewrite Hk, <- Hs. tauto.
  - rewrite get_items; [now rewrite Hi|].
    apply Hk. right. apply Hs. discriminate.
Qed.

(** ** The padding stage *)

Lemma getitem_0_hd (l : list value) : l <> [] -> getitem l 0 = Ok (hd PyNone l).
Proof. destruct l; [congruence | reflexivity]. Qed.

Lemma getitem_m1_last (l : list value) :
  l <> [] -> getitem l (-1) = Ok (last l PyNone).
Proof.
  destruct l as [|a l'] using rev_ind; [congruence|].
  intros _. now rewrite getitem_last, last_last.
Qed.

Lemma len_1 {A : Type} (l : list A) : len l = 1 <-> exists x, l = [x].
Proof.
  unfold len. split.
  - destruct l as [|x [|y l]]; simpl; intros H; try lia. now exists x.
  - intros [x ->]. reflexivity.
Qed.

Section PadFacts.
Variables (start end_ : Z).
Implicit Types (d t : table) (e : dict (value * value)).

Lemma assert_one_eq d k :
  assert_one d k =
    if len (items d k) =? 1 then Ok d else Raise AssertionError.
Proof.
  unfold assert_one, getdefault, items.
  destruct (get d k) as [l|]; simpl.
  - now destruct (len l =? 1).
  - reflexivity.
Qed.

Lemma ends_step_ok d e y :
  items d y <> [] ->
  ends_step (d, e) y =
    Ok (d, set e y (hd PyNone (items d y), last (items d y) PyNone)).
Proof.
  intros Hne. unfold ends_step.
  rewrite (getdefault_present d y (items d y))
    by (apply get_items, items_nonempty_In, Hne).
  rewrite getitem_0_hd by assumption. simpl.
  rewrite (getdefault_present d y (items d y))
    by (apply get_items, items_nonempty_In, Hne).
  rewrite getitem_m1_last by assumption. reflexivity.
Qed.

Lemma ends_step_empty d e y :
  items d y = [] -> ends_step (d, e) y = Raise IndexError.
Proof.
  intros He. unfold ends_step, getdefault. unfold items in He.
  destruct (get d y) as [l|]; [subst l|]; reflexivity.
Qed.

Lemma ends_loop_ok d e years :
  (forall y, In y years -> items d y <> []) ->
  for_each years ends_step (d, e) = Ok (d, ends_of d e years).
Proof.
  revert e. induction years as [|y years IH]; intros e H; cbn [for_each].
  - reflexivity.
  - rewrite ends_step_ok by (apply H; now left). cbn [bind].
    apply IH. intros y' Hy'. apply H. now right.
Qed.

Lemma nil_dec {A : Type} (l : list A) : {l = []} + {l <> []}.
Proof. destruct l; [now left | now right]. Qed.

Lemma ends_loop_empty d e years y :
  In y years -> items d y = [] ->
  for_each years ends_step (d, e) = Raise IndexError.
Proof.
  revert e. induction years as [|y0 years IH]; intros e Hin He;
    cbn [for_each].
  - destruct Hin.
  - destruct (nil_dec (items d y0)) as [H0|H0].
    + now rewrite ends_step_empty.
    + rewrite ends_step_ok by assumption. cbn [bind].
      destruct Hin as [->|Hin]; [contradiction|].
      now apply IH.
Qed.

Lemma get_ends_of_out d e years k :
  ~ In k years -> get (ends_of d e years) k = get e k.
Proof.
  unfold ends_of. revert e. induction years as [|y years IH]; intros e H.
  - reflexivity.
  - simpl. rewrite IH by (simpl in H; tauto).
    apply get_set_other. simpl in H. intros ->. tauto.
Qed.

Lemma get_ends_of_in d e years y :
  In y years ->
  get (ends_of d e years) y =
    Some (hd PyNone (items d y), last (items d y) PyNone).
Proof.
  unfold ends_of. revert e. induction years as [|y0 years IH]; intros e H.
  - destruct H.
  - simpl. destruct (in_dec Z.eq_dec y years) as [Hin|Hout].
    + now apply IH.
    + destruct H as [->|H]; [|contradiction].
      fold (ends_of d (set e y (hd PyNone (items d y),
                                 last (items d y) PyNone)) years).
      rewrite get_ends_of_out by assumption. apply get_set_same.
Qed.

Lemma pad_step_ok e d y p n :
  In y (keys d) ->
  get e (y - 1) = Some p -> get e (y + 1) = Some n ->
  pad_step e d y = Ok (set d y (snd p :: items d y ++ [fst n])).
Proof.
  intros Hin Hp Hn. unfold pad_step, lookup.
  rewrite (getdefault_present d y (items d y)) by now apply get_items.
  rewrite Hp. simpl.
  rewrite (getdefault_present _ y (snd p :: items d y))
    by apply get_set_same.
  rewrite Hn. simpl. now rewrite set_set.
Qed.

Lemma pad_loop e d years :
  NoDup years ->
  (forall y, In y years -> In y (keys d)) ->
  (forall y, In y years ->
     exists p n, get e (y - 1) = Some p /\ get e (y + 1) = Some n) ->
  exists t,
    for_each years (pad_step e) d = Ok t /\
    keys t = keys d /\
    (forall k, ~ In k years -> get t k = get d k) /\
    (forall y p n, In y years ->
       get e (y - 1) = Some p -> get e (y + 1) = Some n ->
       get t y = Some (snd p :: items d y ++ [fst n])).
Proof.
  revert d. induction years as [|y0 years IH]; intros d Hnd Hk He.
  - exists d. simpl. repeat split; auto. intros y p n [].
  - inversion Hnd as [|? ? Hout Hnd']; subst.
    destruct (He y0 (or_introl eq_refl)) as (p0 & n0 & Hp0 & Hn0).
    cbn [for_each].
    rewrite (pad_step_ok e d y0 p0 n0) by (auto; apply Hk; now left).
    cbn [bind].
    set (d1 := set d y0 (snd p0 :: items d y0 ++ [fst n0])).
    assert (Hk1 : keys d1 = keys d)
      by (apply keys_set_present, Hk; now left).
    destruct (IH d1 Hnd') as (t & Ht & Hkeys & Hother & Hyear).
    { intros y Hy. rewrite Hk1. apply Hk. now right. }
    { intros y Hy. apply He. now right. }
    exists t. split; [assumption|]. split; [congruence|]. split.
    + intros k Hk'. simpl in Hk'. rewrite Hother by tauto.
      apply get_set_other. intros ->. tauto.
    + intros y p n [<-|Hy] Hp Hn.
      * rewrite Hother by assumption. unfold d1. rewrite get_set_same.
        congruence.
      * rewrite (Hyear y p n Hy Hp Hn). unfold d1.
        rewrite items_set.
        destruct (y =? y0) eqn:E; [|reflexivity].
        apply Z.eqb_eq in E. subst. contradiction.
Qed.

(** The dictionary [e] as it stands when the padding loop starts. *)
Lemma ends_prev d v0 v1 y :
  items d (start - 1) = [v0] ->
  (forall y, start <= y <= end_ -> items d y <> []) ->
  start <= y <= end_ ->
  exists p,
    get (ends_of d (set (set [] (start - 1) (PyNone, v0)) (end_ + 1)
                      (v1, PyNone)) (range start (end_ + 1))) (y - 1)
      = Some p /\
    getitem (items d (y - 1)) (-1) = Ok (snd p).
Proof.
  intros H0 Hne Hy. destruct (Z.eq_dec y start) as [->|Hn].
  - exists (PyNone, v0). split.
    + rewrite get_ends_of_out by (rewrite In_range; lia).
      rewrite get_set_other by lia. apply get_set_same.
    + rewrite H0. reflexivity.
  - eexists. split.
    + apply get_ends_of_in. rewrite In_range. lia.
    + simpl. apply getitem_m1_last, Hne. lia.
Qed.

Lemma ends_next d v0 v1 y :
  items d (end_ + 1) = [v1] ->
  (forall y, start <= y <= end_ -> items d y <> []) ->
  start <= y <= end_ ->
  exists n,
    get (ends_of d (set (set [] (start - 1) (PyNone, v0)) (end_ + 1)
                      (v1, PyNone)) (range start (end_ + 1))) (y + 1)
      = Some n /\
    getitem (items d (y + 1)) 0 = Ok (fst n).
Proof.
  intros H1 Hne Hy. destruct (Z.eq_dec y end_) as [->|Hn].
  - exists (v1, PyNone). split.
    + rewrite get_ends_of_out by (rewrite In_range; lia).
      apply get_set_same.
    + rewrite H1. reflexivity.
  - eexists. split.
    + apply get_ends_of_in. rewrite In_range. lia.
    + simpl. apply getitem_0_hd, Hne. lia.
Qed.

Lemma pad_assert_fail d :
  len (items d (start - 1)) <> 1 \/ len (items d (end_ + 1)) <> 1 ->
  pad start end_ d = Raise AssertionError.
Proof.
  intros H. unfold pad. rewrite assert_one_eq.
  destruct (len (items d (start - 1)) =? 1) eqn:E0; [|reflexivity].
  cbn [bind]. rewrite assert_one_eq.
  destruct (len (items d (end_ + 1)) =? 1) eqn:E1; [|reflexivity].
  apply Z.eqb_eq in E0, E1. tauto.
Qed.

(** What [pad] does once both assertions hold. *)
Lemma pad_asserted d v0 v1 :
  items d (start - 1) = [v0] -> items d (end_ + 1) = [v1] ->
  pad start end_ d =
    ('(d, e) <- for_each (range start (end_ + 1)) ends_step
                  (d, set (set [] (start - 1) (PyNone, v0)) (end_ + 1)
                        (v1, PyNone)) ;;
     d <- for_each (range start (end_ + 1)) (pad_step e) d ;;
     d <- del d (start - 1) ;;
     d <- del d (end_ + 1) ;;
     Ok d).
Proof.
  intros H0 H1. unfold pad. rewrite !assert_one_eq, H0.
  change (len [v0] =? 1) with true. cbn [bind].
  rewrite !assert_one_eq, H1.
  change (len [v1] =? 1) with true. cbn [bind].
  rewrite (getdefault_present d (start - 1) [v0])
    by (rewrite <- H0; apply get_items, items_nonempty_In; now rewrite H0).
  rewrite (getdefault_present d (end_ + 1) [v1])
    by (rewrite <- H1; apply get_items, items_nonempty_In; now rewrite H1).
  reflexivity.
Qed.

Lemma pad_index_fail d y :
  len (items d (start - 1)) = 1 -> len (items d (end_ + 1)) = 1 ->
  start <= y <= end_ -> items d y = [] ->
  pad start end_ d = Raise IndexError.
Proof.
  intros H0 H1 Hy He.
  apply len_1 in H0. destruct H0 as [v0 H0].
  apply len_1 in H1. destruct H1 as [v1 H1].
  rewrite (pad_asserted d v0 v1) by assumption.
  rewrite (ends_loop_empty d _ _ y); [reflexivity | | assumption].
  apply In_range. lia.
Qed.

Lemma pad_ok d :
  len (items d (start - 1)) = 1 -> len (items d (end_ + 1)) = 1 ->
  (forall y, start <= y <= end_ -> items d y <> []) ->
  start - 1 <> end_ + 1 ->
  exists t,
    pad start end_ d = Ok t /\
    (forall k, In k (keys t) <->
               In k (keys d) /\ k <> start - 1 /\ k <> end_ + 1) /\
    (NoDup (keys d) -> NoDup (keys t)) /\
    (forall y, start <= y <= end_ ->
       exists a b,
         getitem (items d (y - 1)) (-1) = Ok a /\
         getitem (items d (y + 1)) 0 = Ok b /\
         get t y = Some (a :: items d y ++ [b])) /\
    (forall k, ~ start <= k <= end_ -> k <> start - 1 -> k <> end_ + 1 ->
       get t k = get d k).
Proof.
  intros H0 H1 Hne Hb.
  apply len_1 in H0. destruct H0 as [v0 H0].
  apply len_1 in H1. destruct H1 as [v1 H1].
  rewrite (pad_asserted d v0 v1) by assumption.
  rewrite ends_loop_ok by (intros y Hy; apply In_range in Hy; apply Hne; lia).
  cbn [bind].
  set (e := ends_of d _ _).
  assert (Hk0 : In (start - 1) (keys d))
    by (apply items_nonempty_In; now rewrite H0).
  assert (Hk1 : In (end_ + 1) (keys d))
    by (apply items_nonempty_In; now rewrite H1).
  destruct (pad_loop e d (range start (end_ + 1)))
    as (t1 & Ht1 & Hkeys & Hother & Hyear).
  { apply NoDup_range. }
  { intros y Hy. apply items_nonempty_In, Hne. apply In_range in Hy. lia. }
  { intros y Hy. apply In_range in Hy.
    destruct (ends_prev d v0 v1 y) as (p & Hp & _); auto; [lia|].
    destruct (ends_next d v0 v1 y) as (n & Hn & _); auto; [lia|].
    exists p, n. split; assumption. }
  rewrite Ht1. cbn [bind].
  assert (Hg0 : get t1 (start - 1) = get d (start - 1))
    by (apply Hother; rewrite In_range; lia).
  assert (Hg1 : get t1 (end_ + 1) = get d (end_ + 1))
    by (apply Hother; rewrite In_range; lia).
  unfold del at 1. rewrite Hg0, (get_items d (start - 1)) by assumption.
  cbn [bind]. unfold del. rewrite get_remove.
  destruct (end_ + 1 =? start - 1) eqn:E; [apply Z.eqb_eq in E; lia|].
  rewrite Hg1, (get_items d (end_ + 1)) by assumption. cbn [bind].
  eexists. split; [reflexivity|]. split; [|split; [|split]].
  - intros k. rewrite !In_keys_remove, Hkeys. tauto.
  - intros Hnd. apply NoDup_keys_remove, NoDup_keys_remove. now rewrite Hkeys.
  - intros y Hy.
    destruct (ends_prev d v0 v1 y) as (p & Hp & Ha); auto.
    destruct (ends_next d v0 v1 y) as (n & Hn & Hb'); auto.
    exists (snd p), (fst n). split; [assumption|]. split; [assumption|].
    rewrite !get_remove.
    destruct (y =? end_ + 1) eqn:E1; [apply Z.eqb_eq in E1; lia|].
    destruct (y =? start - 1) eqn:E0; [apply Z.eqb_eq in E0; lia|].
    apply Hyear; [apply In_range; lia | assumption | assumption].
  - intros k Hk Hk0' Hk1'. rewrite !get_remove.
    destruct (k =? end_ + 1) eqn:E1; [apply Z.eqb_eq in E1; lia|].
    destruct (k =? start - 1) eqn:E0; [apply Z.eqb_eq in E0; lia|].
    apply Hother. rewrite In_range. lia.
Qed.

Lemma pad_key_fail d :
  len (items d (start - 1)) = 1 -> start - 1 = end_ + 1 ->
  pad start end_ d = Raise KeyError.
Proof.
  intros H0 Hb. pose proof H0 as H1. rewrite Hb in H1.
  apply len_1 in H0. destruct H0 as [v0 H0].
  apply len_1 in H1. destruct H1 as [v1 H1].
  rewrite (pad_asserted d v0 v1) by assumption.
  assert (Hr : range start (end_ + 1) = []).
  { unfold range. replace (Z.to_nat (end_ + 1 - start)) with 0%nat by lia.
    reflexivity. }
  rewrite Hr. cbn [for_each bind].
  unfold del at 1.
  rewrite (get_items d (start - 1))
    by (apply items_nonempty_In; now rewrite H0).
  cbn [bind]. unfold del. rewrite get_remove, Hb, Z.eqb_refl. reflexivity.
Qed.

(** An accepted table satisfies the assertions, has a value for every year
    of the range, and its two boundary years are different years. *)
Lemma pad_inv d t :
  pad start end_ d = Ok t ->
  len (items d (start - 1)) = 1 /\ len (items d (end_ + 1)) = 1 /\
  (forall y, start <= y <= end_ -> items d y <> []) /\
  start - 1 <> end_ + 1.
Proof.
  intros H.
  destruct (Z.eq_dec (len (items d (start - 1))) 1) as [H0|H0];
    [|rewrite pad_assert_fail in H by tauto; discriminate].
  destruct (Z.eq_dec (len (items d (end_ + 1))) 1) as [H1|H1];
    [|rewrite pad_assert_fail in H by tauto; discriminate].
  repeat split; try assumption.
  - intros y Hy He. rewrite (pad_index_fail d y) in H by assumption.
    discriminate.
  - intros Hb. rewrite pad_key_fail in H by assumption. discriminate.
Qed.

End PadFacts.

(** ** The whole script *)

Lemma group_rows_eq (text : string) :
  group_rows text = (rows <- rows_of text ;; Ok (group rows [])).
Proof.
  unfold group_rows, rows_of.
  destruct (data_rows (Str.split_on NL text)) as [lines|e]; simpl.
  - apply for_each_row_step.
  - reflexivity.
Qed.

Lemma items_grouped rows (y : Z) :
  items (group rows []) y = map PyFloat (samples rows y).
Proof. now rewrite items_group. Qed.

Lemma len_map {A B : Type} (f : A -> B) (l : list A) : len (map f l) = len l.
Proof. unfold len. now rewrite length_map. Qed.

Lemma map_nonempty {A B : Type} (f : A -> B) (l : list A) :
  map f l <> [] <-> l <> [].
Proof. destruct l; simpl; split; congruence. Qed.

Section MainFacts.
Variables (start end_ : Z).

Lemma accepted_grouped rows :
  accepted start end_ rows <->
  len (items (group rows []) (start - 1)) = 1 /\
  len (items (group rows []) (end_ + 1)) = 1 /\
  (forall y, start <= y <= end_ -> items (group rows []) y <> []) /\
  start - 1 <> end_ + 1.
Proof.
  unfold accepted. rewrite !items_grouped, !len_map.
  split; intros (H0 & H1 & Hne & Hb); repeat split; try assumption;
    intros y Hy; specialize (Hne y Hy).
  - rewrite items_grouped. now apply map_nonempty.
  - rewrite items_grouped in Hne. now apply map_nonempty in Hne.
Qed.

Lemma main_rows text :
  main start end_ text =
    (rows <- rows_of text ;; pad start end_ (group rows [])).
Proof.
  unfold main. rewrite group_rows_eq. now destruct (rows_of text).
Qed.

(** Accepted rows go through, and the table is the one described. *)
Lemma main_complete text rows :
  rows_of text = Ok rows -> accepted start end_ rows ->
  exists t, main start end_ text = Ok t /\ table_of start end_ rows t.
Proof.
  intros Hrows Hacc. rewrite main_rows, Hrows. cbn [bind].
  apply accepted_grouped in Hacc. destruct Hacc as (H0 & H1 & Hne & Hb).
  destruct (pad_ok start end_ (group rows []) H0 H1 Hne Hb)
    as (t & Ht & Hkeys & Hnd & Hyear & Hother).
  exists t. split; [assumption|]. unfold table_of. repeat split.
  - apply Hnd, NoDup_keys_group. constructor.
  - apply Hkeys in H. destruct H as (H & _).
    apply In_keys_group in H. simpl in H. tauto.
  - apply Hkeys in H. tauto.
  - apply Hkeys in H. tauto.
  - intros (Hin & Hk0 & Hk1). apply Hkeys. repeat split; try assumption.
    apply In_keys_group. now right.
  - intros y Hy. destruct (Hyear y Hy) as (a & b & Ha & Hb' & Hg).
    rewrite !items_grouped in *. rewrite getitem_map in Ha, Hb'.
    destruct (getitem (samples rows (y - 1)) (-1)) as [a'|]; [|discriminate].
    destruct (getitem (samples rows (y + 1)) 0) as [b'|]; [|discriminate].
    exists a', b'. repeat split. congruence.
  - intros k l Hk Hg.
    assert (Hin : In k (keys t)) by (eapply get_Some_In_keys; eauto).
    apply Hkeys in Hin. destruct Hin as (Hin & Hk0 & Hk1).
    rewrite Hother in Hg by assumption.
    rewrite <- items_grouped. symmetry. now apply items_Some.
Qed.

(** Whatever the script dumps comes from accepted rows. *)
Lemma main_inv text t :
  main start end_ text = Ok t ->
  exists rows,
    rows_of text = Ok rows /\ accepted start end_ rows /\
    table_of start end_ rows t.
Proof.
  intros H. pose proof H as H'. rewrite main_rows in H'.
  destruct (rows_of text) as [rows|e] eqn:Hrows; [|discriminate].
  cbn [bind] in H'. exists rows. split; [reflexivity|].
  assert (Hacc : accepted start end_ rows)
    by (apply accepted_grouped; eapply pad_inv; eauto).
  split; [assumption|].
  destruct (main_complete text rows Hrows Hacc) as (t' & Ht' & Htab).
  congruence.
Qed.

End MainFacts.

(** ** Searching and slicing the lines *)

Lemma index_absent (l : list string) (x : string) :
  ~ In x l -> index String.eqb l x = Raise ValueError.
Proof.
  induction l as [|a l IH]; simpl; intros H; [reflexivity|].
  destruct (String.eqb a x) eqn:E.
  - apply String.eqb_eq in E. tauto.
  - rewrite IH by tauto. reflexivity.
Qed.

Lemma index_present (l : list string) (x : string) :
  In x l ->
  exists i,
    index String.eqb l x = Ok i /\ 0 <= i < len l /\
    nth_error l (Z.to_nat i) = Some x /\
    (forall k, (k < Z.to_nat i)%nat -> nth_error l k <> Some x).
Proof.
  induction l as [|a l IH]; simpl; intros H; [destruct H|].
  destruct (String.eqb a x) eqn:E.
  - apply String.eqb_eq in E. subst a. exists 0.
    rewrite len_cons. pose proof (len_nonneg l).
    repeat split; try reflexivity; try lia.
  - apply String.eqb_neq in E. destruct H as [H|H]; [congruence|].
    destruct (IH H) as (i & Hi & Hb & Hn & Hf). exists (i + 1).
    rewrite Hi, len_cons. split; [reflexivity|]. split; [lia|].
    replace (Z.to_nat (i + 1)) with (S (Z.to_nat i)) by lia. split.
    + assumption.
    + intros [|k] Hk; simpl; [congruence|]. apply Hf. lia.
Qed.

Lemma index_Ok_In (l : list string) (x : string) (i : Z) :
  index String.eqb l x = Ok i -> In x l.
Proof.
  intros H. destruct (in_dec string_dec x l) as [Hin|Hout]; [assumption|].
  rewrite index_absent in H by assumption. discriminate.
Qed.

Lemma clamp_inside {A : Type} (l : list A) (i : Z) :
  0 <= i <= len l -> clamp l i = Z.to_nat i.
Proof.
  intros H. unfold clamp.
  destruct (i <? 0) eqn:E; [apply Z.ltb_lt in E; lia|]. lia.
Qed.

Lemma slice_inside {A : Type} (l : list A) (i j : Z) :
  0 <= i <= len l -> 0 <= j <= len l ->
  slice l i j = firstn (Z.to_nat j - Z.to_nat i) (skipn (Z.to_nat i) l).
Proof.
  intros Hi Hj. unfold slice. now rewrite !clamp_inside.
Qed.

Lemma len_slice {A : Type} (l : list A) (i j : Z) :
  0 <= i <= len l -> 0 <= j <= len l ->
  len (slice l i j) = Z.max 0 (j - i).
Proof.
  intros Hi Hj. rewrite slice_inside by assumption.
  unfold len in *. rewrite length_firstn, length_skipn. lia.
Qed.

Lemma getitem_slice {A : Type} (l : list A) (i j k : Z) :
  0 <= i <= len l -> 0 <= j <= len l -> i <= k < j ->
  getitem (slice l i j) (k - i) = getitem l k.
Proof.
  intros Hi Hj Hk. rewrite slice_inside by assumption.
  rewrite !getitem_nonneg by lia.
  rewrite nth_error_firstn.
  destruct (Nat.ltb_spec (Z.to_nat (k - i)) (Z.to_nat j - Z.to_nat i));
    [|lia].
  rewrite nth_error_skipn.
  replace (Z.to_nat i + Z.to_nat (k - i))%nat with (Z.to_nat k) by lia.
  reflexivity.
Qed.

(** ** Converting a row *)

Lemma getitem_Raise {A : Type} (l : list A) (i : Z) (e : exn) :
  getitem l i = Raise e -> e = IndexError.
Proof.
  unfold getitem. destruct (_ <? 0); [congruence|].
  destruct (nth_error l _); congruence.
Qed.

Lemma int_Raise (s : string) (e : exn) : int s = Raise e -> e = ValueError.
Proof.
  unfold int. destruct (Str.sign _) as [neg body].
  destruct (Str.drop_underscores None body) as [[|c cs]|]; try congruence.
  destruct (Str.digits 0 0 (c :: cs)) as [[n [|k]] [|r rs]]; congruence.
Qed.

Lemma float_Raise (s : string) (e : exn) :
  float s = Raise e -> e = ValueError.
Proof.
  unfold float. destruct (Str.drop_underscores None _) as [cs|]; [|congruence].
  destruct (Str.sign cs) as [neg body].
  destruct (_ || _); [congruence|].
  destruct (FloatParse.is_word "nan" body); [congruence|].
  destruct (FloatParse.mantissa body) as [[[m k] rest]|]; [|congruence].
  destruct (FloatParse.exponent rest); congruence.
Qed.

Lemma bind_Raise {A B : Type} (r : result A) (k : A -> result B) (e : exn) :
  bind r k = Raise e -> r = Raise e \/ exists a, r = Ok a /\ k a = Raise e.
Proof. destruct r as [a|e']; simpl; intros H; [eauto | left; congruence]. Qed.

Lemma parse_row_Raise (line : string) (e : exn) :
  parse_row line = Raise e -> e = IndexError \/ e = ValueError.
Proof.
  unfold parse_row. intros H.
  repeat match goal with
  | H : bind _ _ = Raise _ |- _ =>
      apply bind_Raise in H; destruct H as [H|(? & _ & H)]
  | H : getitem _ _ = Raise _ |- _ => apply getitem_Raise in H; now left
  | H : int _ = Raise _ |- _ => apply int_Raise in H; now right
  | H : float _ = Raise _ |- _ => apply float_Raise in H; now right
  end.
  discriminate.
Qed.

(** The last three tokens of a row are its hour, minute and second. *)
Lemma parse_row_tokens (line : string) (pre : list string)
  (th tm ts : string) (y : Z) (v : Float.float) :
  Str.split_ws line = pre ++ [th; tm; ts] ->
  parse_row line = Ok (y, v) ->
  exists h m s,
    float th = Ok h /\ float tm = Ok m /\ float ts = Ok s /\
    v = Float.round (eot h m s) 2.
Proof.
  intros Ha H. unfold parse_row in H. rewrite Ha in H.
  inv_bind H. inv_bind H. inv_bind H.
  rewrite (getitem_app_r pre [th; tm; ts] (-1)) in H
    by (change (len [th; tm; ts]) with 3; lia).
  change (getitem [th; tm; ts] (-1)) with (Ok (A := string) ts) in H.
  cbn [bind] in H. inv_bind H.
  rewrite (getitem_app_r pre [th; tm; ts] (-2)) in H
    by (change (len [th; tm; ts]) with 3; lia).
  change (getitem [th; tm; ts] (-2)) with (Ok (A := string) tm) in H.
  cbn [bind] in H. inv_bind H.
  rewrite (getitem_app_r pre [th; tm; ts] (-3)) in H
    by (change (len [th; tm; ts]) with 3; lia).
  change (getitem [th; tm; ts] (-3)) with (Ok (A := string) th) in H.
  cbn [bind] in H. inv_bind H.
  injection H as _ <-. eauto 8.
Qed.

(** A row that converts has at least three tokens. *)
Lemma parse_row_Ok_tokens (line : string) (r : Z * Float.float) :
  parse_row line = Ok r ->
  exists pre th tm ts, Str.split_ws line = pre ++ [th; tm; ts].
Proof.
  unfold parse_row. intros H.
  assert (Hlen : 3 <= len (Str.split_ws line)).
  { destruct (Z_lt_le_dec (len (Str.split_ws line)) 3) as [Hlt|]; [|lia].
    exfalso. pose proof (len_nonneg (Str.split_ws line)).
    inv_bind H. inv_bind H. inv_bind H. inv_bind H. inv_bind H.
    inv_bind H. inv_bind H. inv_bind H.
    match goal with
    | H3 : getitem _ (-3) = Ok _ |- _ =>
        rewrite getitem_neg in H3 by lia;
        destruct (-3 + len (Str.split_ws line) <? 0) eqn:E;
        [discriminate | apply Z.ltb_ge in E; lia]
    end. }
  clear H. remember (Str.split_ws line) as a eqn:Ea. clear Ea.
  destruct (rev a) as [|ts [|tm [|th pre]]] eqn:Er;
    apply (f_equal (@rev string)) in Er; rewrite rev_involutive in Er;
    subst a; simpl in Hlen; unfold len in Hlen; simpl in Hlen; try lia.
  exists (rev pre), th, tm, ts. simpl. rewrite <- !app_assoc. reflexivity.
Qed.


(** With three tokens the first one is read as the hour too. *)
Lemma parse_row_three (line : string) (a0 a1 a2 : string) (e : exn) :
  Str.split_ws line = [a0; a1; a2] -> float a0 = Raise e ->
  exists e', parse_row line = Raise e'.
Proof.
  intros Ha Hf. destruct (parse_row line) as [[y v]|e'] eqn:H; [|eauto].
  destruct (parse_row_tokens line [] a0 a1 a2 y v Ha H)
    as (h & _ & _ & Hh & _). congruence.
Qed.

Lemma parse_row_rounded (line : string) (y : Z) (v : Float.float) :
  parse_row line = Ok (y, v) -> exists x, v = Float.round x 2.
Proof.
  intros H. destruct (parse_row_Ok_tokens line _ H)
    as (pre & th & tm & ts & Ha).
  destruct (parse_row_tokens line pre th tm ts y v Ha H)
    as (h & m & s & _ & _ & _ & ->). eauto.
Qed.

Lemma parse_all_Forall2 (lines : list string) rows :
  parse_all lines = Ok rows ->
  Forall2 (fun line r => parse_row line = Ok r) lines rows.
Proof.
  revert rows. induction lines as [|line lines IH]; intros rows H; simpl in H.
  - injection H as <-. constructor.
  - inv_bind H. inv_bind H. injection H as <-. constructor; auto.
Qed.


Lemma getitem_0_inv {A : Type} (l : list A) (a : A) :
  getitem l 0 = Ok a -> exists l', l = a :: l'.
Proof. rewrite getitem_0. destruct l; [discriminate|]. intros [= ->]. eauto. Qed.

Lemma getitem_m1_inv {A : Type} (l : list A) (a : A) :
  getitem l (-1) = Ok a -> exists l', l = l' ++ [a].
Proof.
  destruct l as [|x l'] using rev_ind.
  - rewrite getitem_nil. discriminate.
  - rewrite getitem_last. intros [= ->]. eauto.
Qed.

(** ** The keys as [json.dump] writes them *)

Lemma to_int_nonnil (k : Z) :
  Z.to_int k <> Decimal.Pos Decimal.Nil /\
  Z.to_int k <> Decimal.Neg Decimal.Nil.
Proof.
  destruct k as [|p|p]; simpl; split; try discriminate;
    intros [= H]; now apply Unsigned.to_uint_nonnil in H.
Qed.

Lemma json_key_inj (k k' : Z) : json_key k = json_key k' -> k = k'.
Proof.
  unfold json_key. intros H. apply DecimalZ.to_int_inj.
  destruct (to_int_nonnil k) as (Hp & Hn).
  destruct (to_int_nonnil k') as (Hp' & Hn').
  pose proof (NilZero.isi (Z.to_int k) Hp Hn) as E.
  pose proof (NilZero.isi (Z.to_int k') Hp' Hn') as E'.
  rewrite H in E. congruence.
Qed.

Lemma NoDup_json_keys (t : table) : NoDup (keys t) -> NoDup (json_keys t).
Proof.
  intros H. unfold json_keys.
  apply NoDup_map_NoDup_ForallPairs; [|assumption].
  intros k k' _ _. apply json_key_inj.
Qed.

(** * The claims *)

(** ** Continuity at the year boundaries *)

(** C1.  After padding, the first element of a year after [start] is the
    second-to-last element of the year before it, and the last element of a
    year before [end] is the second element of the year after it. *)
Theorem boundary_continuity (start end_ : Z) (text : string) (t : table) :
  main start end_ text = Ok t ->
  (forall y, start < y <= end_ ->
     exists x,
       getitem (items t y) 0 = Ok (PyFloat x) /\
       getitem (items t (y - 1)) (-2) = Ok (PyFloat x)) /\
  (forall y, start <= y < end_ ->
     exists x,
       getitem (items t y) (-1) = Ok (PyFloat x) /\
       getitem (items t (y + 1)) 1 = Ok (PyFloat x)).
Proof.
  intros H. apply main_inv in H.
  destruct H as (rows & _ & _ & _ & _ & Hyear & _). split; intros y Hy.
  - destruct (Hyear y) as (a & b & Ha & _ & Hg); [lia|].
    destruct (Hyear (y - 1)) as (a' & b' & _ & _ & Hg'); [lia|].
    exists a. rewrite (items_Some _ _ _ Hg), (items_Some _ _ _ Hg').
    split; [reflexivity|].
    apply getitem_m1_inv in Ha. destruct Ha as (l' & ->).
    rewrite map_app. simpl.
    change (PyFloat a' :: (map PyFloat l' ++ [PyFloat a]) ++ [PyFloat b'])
      with ((PyFloat a' :: map PyFloat l' ++ [PyFloat a]) ++ [PyFloat b']).
    replace ((PyFloat a' :: map PyFloat l' ++ [PyFloat a]) ++ [PyFloat b'])
      with ((PyFloat a' :: map PyFloat l') ++ [PyFloat a; PyFloat b'])
      by (simpl; now rewrite <- app_assoc).
    rewrite getitem_app_r; [reflexivity|].
    change (len [PyFloat a; PyFloat b']) with 2. lia.
  - destruct (Hyear y) as (a & b & _ & Hb & Hg); [lia|].
    destruct (Hyear (y + 1)) as (a' & b' & _ & _ & Hg'); [lia|].
    exists b. rewrite (items_Some _ _ _ Hg), (items_Some _ _ _ Hg').
    split.
    + change (PyFloat a :: map PyFloat (samples rows y) ++ [PyFloat b])
        with ((PyFloat a :: map PyFloat (samples rows y)) ++ [PyFloat b]).
      apply getitem_last.
    + apply getitem_0_inv in Hb. destruct Hb as (l' & ->). reflexivity.
Qed.

Lemma boundary_continuity_witness :
  exists t,
    main start end_ response_ok = Ok t /\
    (forall y, start < y <= end_ ->
       exists x,
         getitem (items t y) 0 = Ok (PyFloat x) /\
         getitem (items t (y - 1)) (-2) = Ok (PyFloat x)) /\
    (forall y, start <= y < end_ ->
       exists x,
         getitem (items t y) (-1) = Ok (PyFloat x) /\
         getitem (items t (y + 1)) 1 = Ok (PyFloat x)).
Proof.
  eexists. split; [vm_compute; reflexivity|].
  apply (boundary_continuity start end_ response_ok).
  vm_compute. reflexivity.
Defined.

(** ** The interior of a padded year *)

Lemma rows_rounded (lines : list string) rows :
  parse_all lines = Ok rows ->
  Forall (fun r => exists x, snd r = Float.round x 2) rows.
Proof.
  intros H. apply parse_all_Forall2 in H.
  induction H as [|line [y v] lines rows Hrow _ IH]; constructor; auto.
  simpl. eapply parse_row_rounded; eauto.
Qed.

Lemma samples_rounded rows (y : Z) :
  Forall (fun r => exists x, snd r = Float.round x 2) rows ->
  Forall (fun v => exists x, v = Float.round x 2) (samples rows y).
Proof.
  unfold samples. intros H. apply Forall_forall. intros v Hv.
  apply in_map_iff in Hv. destruct Hv as (r & <- & Hr).
  apply filter_In in Hr. rewrite Forall_forall in H. apply H. tauto.
Qed.

(** C5.  Padding changes only the two ends of a year of the range: between
    its first and its last element the dumped list is the list the year had
    before padding, which holds the values of the rows of that year in the
    order of the rows, each one a result of rounding to 2 decimals. *)
Theorem padding_keeps_interior (start end_ : Z) (text : string) (t : table) :
  main start end_ text = Ok t ->
  exists d rows,
    group_rows text = Ok d /\ rows_of text = Ok rows /\
    forall y, start <= y <= end_ ->
      slice (items t y) 1 (-1) = items d y /\
      items d y = map PyFloat (samples rows y) /\
      Forall (fun v => exists x, v = Float.round x 2) (samples rows y).
Proof.
  intros H. apply main_inv in H.
  destruct H as (rows & Hrows & _ & _ & _ & Hyear & _).
  exists (group rows []), rows.
  split; [rewrite group_rows_eq, Hrows; reflexivity|].
  split; [assumption|]. intros y Hy.
  destruct (Hyear y Hy) as (a & b & _ & _ & Hg).
  rewrite (items_Some _ _ _ Hg), slice_inner, items_grouped.
  repeat split. apply samples_rounded.
  unfold rows_of in Hrows. inv_bind Hrows. eapply rows_rounded; eauto.
Qed.

Lemma padding_keeps_interior_witness :
  exists t d rows,
    main start end_ response_ok = Ok t /\
    group_rows response_ok = Ok d /\ rows_of response_ok = Ok rows /\
    forall y, start <= y <= end_ ->
      slice (items t y) 1 (-1) = items d y /\
      items d y = map PyFloat (samples rows y) /\
      Forall (fun v => exists x, v = Float.round x 2) (samples rows y).
Proof.
  assert (H : exists t, main start end_ response_ok = Ok t)
    by (eexists; vm_compute; reflexivity).
  destruct H as (t & H).
  destruct (padding_keeps_interior start end_ response_ok t H)
    as (d & rows & Hd & Hrows & Hall).
  exists t, d, rows. auto.
Defined.

(** ** The keys of the dumped table *)

(** C4, as the script has it.  The dumped table has every year of the range
    as a key, no key twice, and neither boundary year; its keys are the
    years of the data rows other than the two boundary years, so a row of
    a year outside [start - 1 .. end + 1] leaves its year in the table. *)
Theorem final_keys (start end_ : Z) (text : string) (t : table) :
  main start end_ text = Ok t ->
  NoDup (json_keys t) /\
  (forall y, start <= y <= end_ -> In y (keys t)) /\
  ~ In (start - 1) (keys t) /\ ~ In (end_ + 1) (keys t) /\
  exists rows,
    rows_of text = Ok rows /\
    forall k, In k (keys t) <->
              In k (map fst rows) /\ k <> start - 1 /\ k <> end_ + 1.
Proof.
  intros H. apply main_inv in H.
  destruct H as (rows & Hrows & Hacc & Hnd & Hkeys & Hyear & _).
  split; [now apply NoDup_json_keys|]. split; [|split; [|split]].
  - intros y Hy. destruct (Hyear y Hy) as (a & b & _ & _ & Hg).
    eapply get_Some_In_keys; eauto.
  - intros Hin. apply Hkeys in Hin. tauto.
  - intros Hin. apply Hkeys in Hin. tauto.
  - exists rows. auto.
Qed.

Lemma final_keys_witness :
  exists t,
    main start end_ response_ok = Ok t /\
    NoDup (json_keys t) /\
    (forall y, start <= y <= end_ -> In y (keys t)) /\
    ~ In (start - 1) (keys t) /\ ~ In (end_ + 1) (keys t) /\
    exists rows,
      rows_of response_ok = Ok rows /\
      forall k, In k (keys t) <->
                In k (map fst rows) /\ k <> start - 1 /\ k <> end_ + 1.
Proof.
  eexists. split; [vm_compute; reflexivity|].
  apply (final_keys start end_ response_ok).
  vm_compute. reflexivity.
Defined.

(** C4 as stated fails: with a row of 1998 before the window the response
    is accepted and 1998, a year outside the range, is a key of the table. *)
Lemma final_keys_counterexample :
  exists t,
    main start end_ response_extra_year = Ok t /\
    In 1998 (keys t) /\ In "1998" (json_keys t) /\
    ~ start <= 1998 <= end_.
Proof.
  eexists. split; [vm_compute; reflexivity|]. split; [|split].
  - simpl. now left.
  - left. vm_compute. reflexivity.
  - unfold start. lia.
Qed.

(** ** The assertions on the boundary years *)

(** C6.  When, after grouping, the year [start - 1] or the year [end + 1]
    does not hold exactly one value, the script stops on an
    [AssertionError] and dumps nothing. *)
Theorem boundary_assertion (start end_ : Z) (text : string) (d : table) :
  group_rows text = Ok d ->
  len (items d (start - 1)) <> 1 \/ len (items d (end_ + 1)) <> 1 ->
  main start end_ text = Raise AssertionError.
Proof.
  intros Hd H. unfold main. rewrite Hd. cbn [bind].
  now apply pad_assert_fail.
Qed.

Lemma boundary_assertion_witness :
  (exists d,
     group_rows response_two_1999 = Ok d /\
     len (items d (start - 1)) = 2 /\
     main start end_ response_two_1999 = Raise AssertionError) /\
  (exists d,
     group_rows (response (row_1999 :: rows_2000)) = Ok d /\
     len (items d (end_ + 1)) = 0 /\
     main start end_ (response (row_1999 :: rows_2000))
       = Raise AssertionError).
Proof.
  split.
  - eexists. split; [vm_compute; reflexivity|]. split; [reflexivity|].
    eapply (boundary_assertion start end_ response_two_1999).
    + vm_compute. reflexivity.
    + left. vm_compute. discriminate.
  - eexists. split; [vm_compute; reflexivity|]. split; [reflexivity|].
    eapply (boundary_assertion start end_ (response (row_1999 :: rows_2000))).
    + vm_compute. reflexivity.
    + right. vm_compute. discriminate.
Defined.

(** ** The sentinel lines *)

Lemma index_first (l : list string) (x : string) (i : Z) :
  index String.eqb l x = Ok i ->
  0 <= i < len l /\ getitem l i = Ok x /\
  forall k, 0 <= k < i -> getitem l k <> Ok x.
Proof.
  intros H. destruct (index_present l x (index_Ok_In l x i H))
    as (i' & Hi' & Hb & Hn & Hf).
  assert (i' = i) as -> by congruence.
  split; [assumption|]. split.
  - rewrite getitem_nonneg by lia. now rewrite Hn.
  - intros k Hk. rewrite getitem_nonneg by lia.
    specialize (Hf (Z.to_nat k)).
    destruct (nth_error l (Z.to_nat k)) as [a|]; [|discriminate].
    intros [= ->]. apply Hf; [lia | reflexivity].
Qed.

(** C7.  Without a line [$$SOE] or without a line [$$EOE] the script stops
    on a [ValueError] and dumps nothing.  With both, [i] and [j] being the
    positions of the first such lines, the data rows are the lines at the
    positions strictly between [i] and [j], in order, and each of them goes
    through the loop body as one row. *)
Theorem sentinel_lines (start end_ : Z) (text : string) :
  let lines := Str.split_on NL text in
  (~ In SOE lines \/ ~ In EOE lines ->
   main start end_ text = Raise ValueError) /\
  (In SOE lines -> In EOE lines ->
   exists i j rows,
     (getitem lines i = Ok SOE /\
      forall k, 0 <= k < i -> getitem lines k <> Ok SOE) /\
     (getitem lines j = Ok EOE /\
      forall k, 0 <= k < j -> getitem lines k <> Ok EOE) /\
     data_rows lines = Ok rows /\
     len rows = Z.max 0 (j - (i + 1)) /\
     (forall k, i < k < j -> getitem rows (k - (i + 1)) = getitem lines k) /\
     group_rows text = for_each rows row_step []).
Proof.
  intros lines. split.
  - intros H. unfold main, group_rows, data_rows. fold lines.
    destruct (in_dec string_dec SOE lines) as [Hs|Hs].
    + destruct (index_present lines SOE Hs) as (i & -> & _). cbn [bind].
      rewrite index_absent by tauto. reflexivity.
    + rewrite index_absent by assumption. reflexivity.
  - intros Hs He.
    destruct (index_present lines SOE Hs) as (i & Hi & _).
    destruct (index_present lines EOE He) as (j & Hj & _).
    destruct (index_first lines SOE i Hi) as (Hbi & Hgi & Hfi).
    destruct (index_first lines EOE j Hj) as (Hbj & Hgj & Hfj).
    exists i, j, (slice lines (i + 1) j).
    split; [auto|]. split; [auto|]. split; [|split; [|split]].
    + unfold data_rows. rewrite Hi, Hj. reflexivity.
    + apply len_slice; lia.
    + intros k Hk. apply getitem_slice; lia.
    + unfold group_rows, data_rows. fold lines. rewrite Hi, Hj. reflexivity.
Qed.

Lemma sentinel_lines_witness :
  main start end_ (response []) <> Raise ValueError /\
  main start end_ "no data here" = Raise ValueError /\
  exists i j rows,
    getitem (Str.split_on NL response_ok) i = Ok SOE /\
    getitem (Str.split_on NL response_ok) j = Ok EOE /\
    data_rows (Str.split_on NL response_ok) = Ok rows /\
    len rows = Z.max 0 (j - (i + 1)) /\
    group_rows response_ok = for_each rows row_step [].
Proof.
  split; [vm_compute; discriminate|]. split.
  - apply (sentinel_lines start end_ "no data here").
    left. vm_compute. intuition discriminate.
  - destruct (sentinel_lines start end_ response_ok) as (_ & H).
    destruct H as (i & j & rows & (Hi & _) & (Hj & _) & Hd & Hl & _ & Hg).
    + vm_compute. tauto.
    + vm_compute. tauto.
    + exists i, j, rows. auto.
Defined.

(** ** Rows with too few tokens *)





(** ** The conversion *)





(** C9, as the script has it.  The apparent solar time 11:57:11.8441, that
    of the row of 1999-Dec-31, converts to -2.8 minutes. *)
Theorem worked_example :
  exists x,
    float "-2.8" = Ok x /\
    (h <- float "11" ;; m <- float "57" ;; s <- float "11.8441" ;;
     Ok (spec_eot h m s)) = Ok x /\
    parse_row row_1999 = Ok (1999, x).
Proof.
  eexists. split; [vm_compute; reflexivity|].
  split; vm_compute; reflexivity.
Qed.

(** C9 as stated fails: the value is not -2.52. *)
Lemma worked_example_counterexample :
  (h <- float "11" ;; m <- float "57" ;; s <- float "11.8441" ;;
   Ok (spec_eot h m s)) <> float "-2.52".
Proof. vm_compute. discriminate. Qed.

(** ** The range of the values *)

Lemma In_samples rows (y : Z) (x : Float.float) :
  In x (samples rows y) <-> In (y, x) rows.
Proof.
  unfold samples. rewrite in_map_iff. split.
  - intros ([k v] & <- & Hin). apply filter_In in Hin.
    destruct Hin as (Hin & E). simpl in E. apply Z.eqb_eq in E.
    simpl. now subst.
  - intros Hin. exists (y, x). split; [reflexivity|].
    apply filter_In. simpl. now rewrite Z.eqb_refl.
Qed.

(** C10, as the script has it.  The values of the dumped table are the
    values of the data rows, no more and no fewer (padding copies values and
    makes none, and nothing of the table is [None]); so they all lie in
    [-20.0, 20.0] exactly when the value of every data row does.  The script
    checks no range. *)
Theorem table_values_are_row_values (start end_ : Z) (text : string)
  (t : table) :
  start <= end_ ->
  main start end_ text = Ok t ->
  exists rows,
    rows_of text = Ok rows /\
    (forall v, (exists y, In v (items t y)) <->
               (exists x, v = PyFloat x /\ In x (map snd rows))) /\
    ((forall y x, In (PyFloat x) (items t y) -> in_range x = true) <->
     (forall x, In x (map snd rows) -> in_range x = true)).
Proof.
  intros Hse H. apply main_inv in H.
  destruct H as (rows & Hrows & Hacc & Hnd & Hkeys & Hyear & Hother).
  destruct Hacc as (H0 & H1 & Hne & Hb).
  exists rows. split; [assumption|].
  assert (Hval : forall v, (exists y, In v (items t y)) <->
                           (exists x, v = PyFloat x /\ In x (map snd rows))).
  { intros v. split.
    - intros (y & Hin).
      assert (Hfrom : forall k x, In x (samples rows k) ->
                exists x', PyFloat x = PyFloat x' /\ In x' (map snd rows)).
      { intros k x Hx. exists x. split; [reflexivity|].
        apply In_samples in Hx. apply in_map_iff. now exists (k, x). }
      destruct (Z_le_dec start y) as [Hly|Hly];
        [destruct (Z_le_dec y end_) as [Hry|Hry]|].
      + destruct (Hyear y (conj Hly Hry)) as (a & b & Ha & Hb' & Hg).
        rewrite (items_Some _ _ _ Hg) in Hin.
        destruct Hin as [<-|Hin].
        * apply (Hfrom (y - 1)). eapply getitem_In; eauto.
        * apply in_app_or in Hin. destruct Hin as [Hin|[<-|[]]].
          -- apply in_map_iff in Hin. destruct Hin as (x & <- & Hx).
             now apply (Hfrom y).
          -- apply (Hfrom (y + 1)). eapply getitem_In; eauto.
      + unfold items in Hin. destruct (get t y) as [l|] eqn:Hg; [|destruct Hin].
        rewrite (Hother y l) in Hin by (auto; lia).
        apply in_map_iff in Hin. destruct Hin as (x & <- & Hx).
        now apply (Hfrom y).
      + unfold items in Hin. destruct (get t y) as [l|] eqn:Hg; [|destruct Hin].
        rewrite (Hother y l) in Hin by (auto; lia).
        apply in_map_iff in Hin. destruct Hin as (x & <- & Hx).
        now apply (Hfrom y).
    - intros (x & -> & Hx). apply in_map_iff in Hx.
      destruct Hx as ([k x'] & Hk & Hin). simpl in Hk. subst x'.
      apply In_samples in Hin.
      destruct (Z.eq_dec k (start - 1)) as [->|Hk0].
      { exists start. destruct (Hyear start) as (a & b & Ha & _ & Hg); [lia|].
        rewrite (items_Some _ _ _ Hg). left. f_equal.
        apply len_1 in H0. destruct H0 as (x0 & Hx0).
        rewrite Hx0 in Ha, Hin. destruct Hin as [<-|[]].
        change (getitem [x0] (-1)) with (Ok (A := Float.float) x0) in Ha.
        congruence. }
      destruct (Z.eq_dec k (end_ + 1)) as [->|Hk1].
      { exists end_. destruct (Hyear end_) as (a & b & _ & Hb' & Hg); [lia|].
        rewrite (items_Some _ _ _ Hg). right. apply in_or_app. right. left.
        f_equal. apply len_1 in H1. destruct H1 as (x1 & Hx1).
        rewrite Hx1 in Hb', Hin. destruct Hin as [<-|[]].
        change (getitem [x1] 0) with (Ok (A := Float.float) x1) in Hb'.
        congruence. }
      exists k.
      destruct (Z_le_dec start k) as [Hly|Hly];
        [destruct (Z_le_dec k end_) as [Hry|Hry]|].
      + destruct (Hyear k (conj Hly Hry)) as (a & b & _ & _ & Hg).
        rewrite (items_Some _ _ _ Hg). right. apply in_or_app. left.
        now apply in_map.
      + assert (Hink : In k (keys t)).
        { apply Hkeys. repeat split; auto. apply samples_nonempty.
          intros E. now rewrite E in Hin. }
        apply get_items in Hink. pose proof Hink as Hl.
        apply Hother in Hl; [|lia]. rewrite Hl. now apply in_map.
      + assert (Hink : In k (keys t)).
        { apply Hkeys. repeat split; auto. apply samples_nonempty.
          intros E. now rewrite E in Hin. }
        apply get_items in Hink. pose proof Hink as Hl.
        apply Hother in Hl; [|lia]. rewrite Hl. now apply in_map. }
  split; [assumption|]. split.
  - intros Ht x Hx. destruct (proj2 (Hval (PyFloat x))) as (y & Hy); eauto.
  - intros Hr y x Hin. destruct (proj1 (Hval (PyFloat x))) as (x' & E & Hx').
    + eauto.
    + injection E as ->. auto.
Qed.

Lemma table_values_are_row_values_witness :
  exists t rows,
    main start end_ response_ok = Ok t /\
    rows_of response_ok = Ok rows /\
    (forall v, (exists y, In v (items t y)) <->
               (exists x, v = PyFloat x /\ In x (map snd rows))) /\
    ((forall y x, In (PyFloat x) (items t y) -> in_range x = true) <->
     (forall x, In x (map snd rows) -> in_range x = true)).
Proof.
  assert (H : exists t, main start end_ response_ok = Ok t)
    by (eexists; vm_compute; reflexivity).
  destruct H as (t & H).
  destruct (table_values_are_row_values start end_ response_ok t)
    as (rows & Hrows & Hval & Hrange).
  - unfold start, end_. lia.
  - assumption.
  - exists t, rows. auto.
Defined.

(** C10 as stated fails: with an apparent solar time of 00:00:00 on the
    first day of 2000 the response is accepted and the table holds -720.0,
    a value outside [-20.0, 20.0]. *)
Lemma table_values_counterexample :
  exists t x,
    main start end_ response_midnight = Ok t /\
    float "-720.0" = Ok x /\
    getitem (items t 2000) 1 = Ok (PyFloat x) /\
    in_range x = false.
Proof.
  eexists. eexists. split; [vm_compute; reflexivity|].
  split; [vm_compute; reflexivity|]. split; vm_compute; reflexivity.
Qed.

(** ** The length of a padded year *)

Lemma length_samples rows (y : Z) :
  List.length (samples rows y) = count_occ Z.eq_dec (map fst rows) y.
Proof.
  unfold samples. rewrite length_map.
  induction rows as [|[k v] rows IH]; simpl; [reflexivity|].
  destruct (Z.eq_dec k y) as [->|Hne].
  - rewrite Z.eqb_refl. simpl. now rewrite IH.
  - destruct (k =? y) eqn:E; [apply Z.eqb_eq in E; contradiction|].
    assumption.
Qed.

Lemma length_days_of (y : Z) :
  List.length (days_of y) = Z.to_nat (days_in_year y).
Proof.
  unfold days_of, days_in_year, days_in_month.
  destruct (is_leap y); reflexivity.
Qed.

Lemma years_of_days_of (y : Z) :
  map year_of (days_of y) = repeat y (List.length (days_of y)).
Proof.
  assert (H : forall d, In d (days_of y) -> year_of d = y).
  { unfold days_of. intros d Hd. apply in_flat_map in Hd.
    destruct Hd as (m & _ & Hd). apply in_map_iff in Hd.
    destruct Hd as (k & <- & _). reflexivity. }
  induction (days_of y) as [|d l IH]; simpl; [reflexivity|].
  rewrite H by now left. f_equal. apply IH. intros d' Hd'. apply H. now right.
Qed.

Lemma count_years (ys : list Z) (y : Z) :
  NoDup ys ->
  count_occ Z.eq_dec (map year_of (flat_map days_of ys)) y =
    if in_dec Z.eq_dec y ys then Z.to_nat (days_in_year y) else 0%nat.
Proof.
  induction ys as [|y0 ys IH]; intros Hnd; [reflexivity|].
  inversion Hnd as [|? ? Hout Hnd']; subst.
  cbn [flat_map]. rewrite map_app, count_occ_app, IH by assumption.
  rewrite years_of_days_of, length_days_of.
  destruct (Z.eq_dec y y0) as [->|Hne].
  - rewrite count_occ_repeat_eq by reflexivity.
    destruct (in_dec Z.eq_dec y0 ys); [contradiction|].
    destruct (in_dec Z.eq_dec y0 (y0 :: ys)) as [_|Hn]; [lia|].
    exfalso. apply Hn. now left.
  - rewrite count_occ_repeat_neq by assumption.
    destruct (in_dec Z.eq_dec y ys) as [Hin|Hin];
      destruct (in_dec Z.eq_dec y (y0 :: ys)) as [Hin'|Hin'];
      try reflexivity.
    + exfalso. apply Hin'. now right.
    + destruct Hin' as [->|Hin']; [congruence | contradiction].
Qed.

Lemma count_window (start end_ y : Z) :
  count_occ Z.eq_dec (map year_of (window start end_)) y =
    ((if Z.eq_dec (start - 1) y then 1 else 0)
     + (if in_dec Z.eq_dec y (range start (end_ + 1))
        then Z.to_nat (days_in_year y) else 0)
     + (if Z.eq_dec (end_ + 1) y then 1 else 0))%nat.
Proof.
  unfold window. rewrite map_cons, map_app. cbn [count_occ year_of fst map].
  rewrite count_occ_app, count_years by apply NoDup_range.
  cbn [count_occ].
  destruct (Z.eq_dec (start - 1) y), (Z.eq_dec (end_ + 1) y),
    (in_dec Z.eq_dec y (range start (end_ + 1))); lia.
Qed.

Lemma days_in_year_pos (y : Z) : 365 <= days_in_year y <= 366.
Proof. unfold days_in_year. destruct (is_leap y); lia. Qed.

(** C2.  When the response has one data row for every calendar day of the
    requested window, it is accepted and the dumped list of every year of
    the range has as many elements as the year has days, and two more. *)
Theorem padded_length (start end_ : Z) (text : string)
  (rows : list (Z * Float.float)) :
  start <= end_ ->
  rows_of text = Ok rows ->
  one_row_per_day start end_ rows ->
  exists t,
    main start end_ text = Ok t /\
    forall y, start <= y <= end_ -> len (items t y) = days_in_year y + 2.
Proof.
  intros Hse Hrows Hperm.
  assert (Hcount : forall y,
    List.length (samples rows y) =
      ((if Z.eq_dec (start - 1) y then 1 else 0)
       + (if in_dec Z.eq_dec y (range start (end_ + 1))
          then Z.to_nat (days_in_year y) else 0)
       + (if Z.eq_dec (end_ + 1) y then 1 else 0))%nat).
  { intros y. rewrite length_samples, <- count_window.
    now apply Permutation_count_occ. }
  assert (Hin : forall y, start <= y <= end_ ->
    List.length (samples rows y) = Z.to_nat (days_in_year y)).
  { intros y Hy. rewrite Hcount.
    destruct (Z.eq_dec (start - 1) y); [lia|].
    destruct (Z.eq_dec (end_ + 1) y); [lia|].
    destruct (in_dec Z.eq_dec y (range start (end_ + 1))) as [_|Hn]; [lia|].
    exfalso. apply Hn, In_range. lia. }
  assert (Hacc : accepted start end_ rows).
  { unfold accepted, len. rewrite !Hcount. repeat split.
    - destruct (Z.eq_dec (start - 1) (start - 1)); [|congruence].
      destruct (Z.eq_dec (end_ + 1) (start - 1)); [lia|].
      destruct (in_dec Z.eq_dec (start - 1) (range start (end_ + 1)))
        as [Hi|_]; [apply In_range in Hi; lia | reflexivity].
    - destruct (Z.eq_dec (end_ + 1) (end_ + 1)); [|congruence].
      destruct (Z.eq_dec (start - 1) (end_ + 1)); [lia|].
      destruct (in_dec Z.eq_dec (end_ + 1) (range start (end_ + 1)))
        as [Hi|_]; [apply In_range in Hi; lia | reflexivity].
    - intros y Hy E. specialize (Hin y Hy). rewrite E in Hin.
      pose proof (days_in_year_pos y). simpl in Hin. lia.
    - lia. }
  destruct (main_complete start end_ text rows Hrows Hacc)
    as (t & Ht & _ & _ & Hyear & _).
  exists t. split; [assumption|]. intros y Hy.
  destruct (Hyear y Hy) as (a & b & _ & _ & Hg).
  rewrite (items_Some _ _ _ Hg). unfold len. simpl.
  rewrite length_app, length_map, Hin by assumption. simpl.
  pose proof (days_in_year_pos y). lia.
Qed.

Lemma padded_length_witness :
  exists rows t,
    rows_of response_year_2000 = Ok rows /\
    map fst rows = map year_of (window 2000 2000) /\
    main 2000 2000 response_year_2000 = Ok t /\
    forall y, 2000 <= y <= 2000 -> len (items t y) = days_in_year y + 2.
Proof.
  assert (H : exists rows,
            rows_of response_year_2000 = Ok rows /\
            map fst rows = map year_of (window 2000 2000))
    by (eexists; split; vm_compute; reflexivity).
  destruct H as (rows & Hrows & Hyears).
  destruct (padded_length 2000 2000 response_year_2000 rows)
    as (t & Ht & Hlen).
  - lia.
  - assumption.
  - unfold one_row_per_day. rewrite Hyears. apply Permutation_refl.
  - exists rows, t. auto.
Defined.

(** * Further properties of the script *)

(** ** When the script returns, and what it raises *)

Lemma data_rows_Raise (lines : list string) (e : exn) :
  data_rows lines = Raise e -> e = ValueError.
Proof.
  unfold data_rows. intros H.
  destruct (in_dec string_dec SOE lines) as [Hs|Hs].
  - destruct (index_present lines SOE Hs) as (i & Hi & _).
    rewrite Hi in H. cbn [bind] in H.
    destruct (in_dec string_dec EOE lines) as [He|He].
    + destruct (index_present lines EOE He) as (j & Hj & _).
      rewrite Hj in H. discriminate.
    + rewrite index_absent in H by assumption. now injection H.
  - rewrite index_absent in H by assumption. now injection H.
Qed.

Lemma parse_all_Raise_kind (lines : list string) (e : exn) :
  parse_all lines = Raise e -> e = IndexError \/ e = ValueError.
Proof.
  induction lines as [|line lines IH]; simpl; [discriminate|].
  destruct (parse_row line) as [r|e0] eqn:Hrow; simpl.
  - destruct (parse_all lines) as [rs|e1]; simpl; [discriminate|].
    intros [= <-]. now apply IH.
  - intros [= <-]. eapply parse_row_Raise; eauto.
Qed.

Lemma rows_of_Raise (text : string) (e : exn) :
  rows_of text = Raise e -> e = IndexError \/ e = ValueError.
Proof.
  unfold rows_of. intros H. apply bind_Raise in H.
  destruct H as [H|(lines & _ & H)].
  - right. eapply data_rows_Raise; eauto.
  - eapply parse_all_Raise_kind; eauto.
Qed.

(** X1.  The script returns a table exactly when every data row converts,
    each of the two boundary years has exactly one row, every year of the
    range has at least one row, and the two boundary years differ. *)
Theorem acceptance_criterion (start end_ : Z) (text : string) :
  (exists t, main start end_ text = Ok t) <->
  (exists rows, rows_of text = Ok rows /\ accepted start end_ rows).
Proof.
  split.
  - intros (t & H). apply main_inv in H.
    destruct H as (rows & Hrows & Hacc & _). eauto.
  - intros (rows & Hrows & Hacc).
    destruct (main_complete start end_ text rows Hrows Hacc) as (t & Ht & _).
    eauto.
Qed.

(** X2.  A year of the range without any row makes the script stop on an
    [IndexError], at the read of the first value of that year; the boundary
    assertions having passed, nothing else is raised before. *)
Theorem gap_year_raises (start end_ : Z) (text : string)
  (rows : list (Z * Float.float)) (y : Z) :
  rows_of text = Ok rows ->
  len (samples rows (start - 1)) = 1 ->
  len (samples rows (end_ + 1)) = 1 ->
  start <= y <= end_ -> samples rows y = [] ->
  main start end_ text = Raise IndexError.
Proof.
  intros Hrows H0 H1 Hy He. rewrite main_rows, Hrows. cbn [bind].
  apply (pad_index_fail start end_ _ y); rewrite ?items_grouped, ?len_map;
    try assumption.
  now rewrite He.
Qed.

Lemma gap_year_raises_witness :
  exists rows,
    rows_of response_gap = Ok rows /\
    samples rows 2000 = [] /\
    main start end_ response_gap = Raise IndexError.
Proof.
  eexists. split; [vm_compute; reflexivity|]. split; [reflexivity|].
  eapply (gap_year_raises start end_ response_gap _ 2000).
  - vm_compute. reflexivity.
  - reflexivity.
  - reflexivity.
  - unfold start, end_. lia.
  - reflexivity.
Defined.

(** X3.  With boundary years that differ (as they do whenever
    [start <= end]) the script never raises a [KeyError]: no key is missing
    when the padding loop reads [e] or when the boundary years are deleted;
    a missing year shows earlier, as an [IndexError]. *)
Theorem never_KeyError (start end_ : Z) (text : string) :
  start - 1 <> end_ + 1 ->
  main start end_ text <> Raise KeyError.
Proof.
  intros Hb H. rewrite main_rows in H.
  destruct (rows_of text) as [rows|e] eqn:Hrows; cbn [bind] in H.
  - set (d := group rows []) in *.
    destruct (Z.eq_dec (len (items d (start - 1))) 1) as [H0|H0];
      [|rewrite pad_assert_fail in H by tauto; discriminate].
    destruct (Z.eq_dec (len (items d (end_ + 1))) 1) as [H1|H1];
      [|rewrite pad_assert_fail in H by tauto; discriminate].
    destruct (Forall_Exists_dec (fun y => items d y <> [])
                (fun y => match nil_dec (items d y) with
                          | left E => right (fun N => N E)
                          | right N => left N
                          end)
                (range start (end_ + 1))) as [Hall|Hex].
    + rewrite Forall_forall in Hall.
      destruct (pad_ok start end_ d H0 H1) as (t & Ht & _); [|assumption|].
      * intros y Hy. apply Hall, In_range. lia.
      * rewrite Ht in H. discriminate.
    + apply Exists_exists in Hex. destruct Hex as (y & Hy & He).
      apply In_range in Hy.
      rewrite (pad_index_fail start end_ d y) in H; try assumption;
        try lia; [discriminate|].
      destruct (items d y); [reflexivity | exfalso; apply He; discriminate].
  - injection H as ->. apply rows_of_Raise in Hrows.
    destruct Hrows; discriminate.
Qed.

Lemma never_KeyError_witness :
  main start end_ response_gap <> Raise KeyError /\
  main start end_ response_ok <> Raise KeyError.
Proof.
  split; apply never_KeyError; unfold start, end_; lia.
Defined.

Lemma parse_all_first_failure (good rest : list string) (bad : string)
  (e : exn) :
  Forall (fun line => exists r, parse_row line = Ok r) good ->
  parse_row bad = Raise e ->
  parse_all (good ++ bad :: rest) = Raise e.
Proof.
  intros Hgood Hbad.
  induction Hgood as [|line good (r & Hr) _ IH]; cbn [parse_all app].
  - now rewrite Hbad.
  - now rewrite Hr, IH.
Qed.

(** X4.  The first data row that fails to convert decides the outcome:
    the script raises the exception of that row, whatever the rows after it
    and whatever the boundary years hold. *)
Theorem first_failing_row (start end_ : Z) (text : string)
  (good rest : list string) (bad : string) (e : exn) :
  data_rows (Str.split_on NL text) = Ok (good ++ bad :: rest) ->
  Forall (fun line => exists r, parse_row line = Ok r) good ->
  parse_row bad = Raise e ->
  main start end_ text = Raise e.
Proof.
  intros Hd Hgood Hbad. rewrite main_rows. unfold rows_of. rewrite Hd.
  cbn [bind]. now rewrite (parse_all_first_failure good rest bad e).
Qed.

Lemma first_failing_row_witness :
  main start end_
    (response [row_1999; " 2000-Jan-01 12:00 *m  n.a."; "12:00"])
  = Raise ValueError.
Proof.
  apply (first_failing_row start end_ _ [row_1999] ["12:00"]
           " 2000-Jan-01 12:00 *m  n.a.").
  - vm_compute. reflexivity.
  - constructor; [|constructor]. eexists. vm_compute. reflexivity.
  - vm_compute. reflexivity.
Defined.

(** ** The data section *)

Lemma len_0_nil {A : Type} (l : list A) : len l = 0 -> l = [].
Proof. destruct l; [reflexivity | unfold len; simpl; lia]. Qed.

(** X5.  When the first [$$EOE] line comes before the first [$$SOE] line,
    or right after it, no row is read and the script stops on the first
    boundary assertion. *)
Theorem empty_data_section (start end_ : Z) (text : string) (i j : Z) :
  index String.eqb (Str.split_on NL text) SOE = Ok i ->
  index String.eqb (Str.split_on NL text) EOE = Ok j ->
  j <= i + 1 ->
  main start end_ text = Raise AssertionError.
Proof.
  intros Hi Hj Hle.
  destruct (index_first _ _ _ Hi) as (Hbi & _).
  destruct (index_first _ _ _ Hj) as (Hbj & _).
  assert (Hrows : slice (Str.split_on NL text) (i + 1) j = []).
  { apply len_0_nil. rewrite len_slice by lia. lia. }
  unfold main, group_rows, data_rows. rewrite Hi, Hj. cbn [bind].
  rewrite Hrows. cbn [for_each bind].
  apply pad_assert_fail. left. discriminate.
Qed.

Lemma empty_data_section_witness :
  main start end_ response_reversed = Raise AssertionError /\
  main start end_ (response []) = Raise AssertionError.
Proof.
  split.
  - apply (empty_data_section start end_ response_reversed 9 5).
    + vm_compute. reflexivity.
    + vm_compute. reflexivity.
    + lia.
  - apply (empty_data_section start end_ (response []) 5 6).
    + vm_compute. reflexivity.
    + vm_compute. reflexivity.
    + lia.
Defined.

Lemma index_app_absent (l1 l2 : list string) (x : string) :
  ~ In x l1 ->
  index String.eqb (l1 ++ l2) x =
    (k <- index String.eqb l2 x ;; Ok (k + len l1)).
Proof.
  induction l1 as [|a l1 IH]; intros H; cbn [app index].
  - destruct (index String.eqb l2 x) as [k|e]; cbn [bind]; [|reflexivity].
    f_equal. change (len (@nil string)) with 0. lia.
  - destruct (String.eqb a x) eqn:E.
    + apply String.eqb_eq in E. exfalso. apply H. now left.
    + rewrite IH by (intros Hin; apply H; now right).
      destruct (index String.eqb l2 x) as [k|e]; cbn [bind]; [|reflexivity].
      f_equal. rewrite len_cons. lia.
Qed.

Lemma index_head (l : list string) (x : string) :
  index String.eqb (x :: l) x = Ok 0.
Proof. cbn [index]. now rewrite String.eqb_refl. Qed.

Lemma slice_middle {A : Type} (l1 l2 l3 : list A) :
  slice (l1 ++ l2 ++ l3) (len l1) (len l1 + len l2) = l2.
Proof.
  pose proof (len_nonneg l1). pose proof (len_nonneg l2).
  pose proof (len_nonneg l3).
  rewrite slice_inside by (rewrite !len_app; lia).
  replace (Z.to_nat (len l1)) with (List.length l1) by (unfold len; lia).
  replace (Z.to_nat (len l1 + len l2) - List.length l1)%nat
    with (List.length l2) by (unfold len; lia).
  rewrite skipn_app, skipn_all, Nat.sub_diag. cbn [skipn app].
  rewrite firstn_app, firstn_all, Nat.sub_diag. cbn [firstn].
  apply app_nil_r.
Qed.

Lemma forallb_not_In (l : list string) (x : string) :
  forallb (fun a => negb (String.eqb a x)) l = true -> ~ In x l.
Proof.
  intros H Hin. rewrite forallb_forall in H. specialize (H x Hin).
  now rewrite String.eqb_refl in H.
Qed.

(** X6.  What stands before the first [$$SOE] line and after the first
    [$$EOE] line is not read: when neither sentinel occurs before the
    [$$SOE] line and no [$$EOE] occurs in the lines [body] after it, the
    rows are exactly [body], whatever the header and the footer are. *)
Theorem header_and_footer_ignored (text : string)
  (head body foot : list string) :
  Str.split_on NL text = head ++ SOE :: body ++ EOE :: foot ->
  ~ In SOE head -> ~ In EOE head -> ~ In EOE body ->
  data_rows (Str.split_on NL text) = Ok body /\
  group_rows text = for_each body row_step [].
Proof.
  intros Hsplit Hs He Hb.
  assert (Hd : data_rows (Str.split_on NL text) = Ok body).
  { rewrite Hsplit. unfold data_rows.
    rewrite (index_app_absent head _ SOE Hs), index_head. cbn [bind].
    rewrite (index_app_absent head _ EOE He). cbn [index].
    change (String.eqb SOE EOE) with false. cbv iota.
    rewrite (index_app_absent body _ EOE Hb), index_head. cbn [bind].
    f_equal.
    change (head ++ SOE :: body ++ EOE :: foot)
      with (head ++ [SOE] ++ body ++ EOE :: foot).
    rewrite (app_assoc head [SOE]).
    replace (0 + len head + 1) with (len (head ++ [SOE]))
      by (rewrite len_app; change (len [SOE]) with 1; lia).
    replace (0 + len body + 1 + len head)
      with (len (head ++ [SOE]) + len body)
      by (rewrite len_app; change (len [SOE]) with 1; lia).
    apply slice_middle. }
  split; [assumption|]. unfold group_rows. rewrite Hd. reflexivity.
Qed.

Lemma header_and_footer_ignored_witness :
  data_rows (Str.split_on NL response_ok)
    = Ok (row_1999 :: rows_2000 ++ rows_2001_2100 ++ [row_2101]) /\
  group_rows response_ok
    = for_each (row_1999 :: rows_2000 ++ rows_2001_2100 ++ [row_2101])
        row_step [].
Proof.
  apply (header_and_footer_ignored response_ok header _ footer).
  - vm_compute. reflexivity.
  - apply forallb_not_In. vm_compute. reflexivity.
  - apply forallb_not_In. vm_compute. reflexivity.
  - apply forallb_not_In. vm_compute. reflexivity.
Defined.

(** ** What a row is read from *)

Lemma parse_row_ends (line a0 : string) (mid : list string)
  (th tm ts : string) :
  Str.split_ws line = a0 :: mid ++ [th; tm; ts] ->
  parse_row line =
    (y0 <- getitem (Str.split_on "-" a0) 0 ;;
     year <- int y0 ;;
     s <- float ts ;;
     m <- float tm ;;
     h <- float th ;;
     Ok (year, Float.round (eot h m s) 2)).
Proof.
  intros Ha. unfold parse_row. rewrite Ha.
  change (a0 :: mid ++ [th; tm; ts]) with ((a0 :: mid) ++ [th; tm; ts]).
  rewrite (getitem_app_l (a0 :: mid) [th; tm; ts] 0)
    by (rewrite len_cons; pose proof (len_nonneg mid); lia).
  rewrite !(getitem_app_r (a0 :: mid) [th; tm; ts])
    by (change (len [th; tm; ts]) with 3; lia).
  reflexivity.
Qed.

(** X7.  A row is read from the year of its date, the text before the
    first [-] of its first token, and from its last three tokens only.  The
    rest of the date and the tokens in between, the time of day and the
    presence flags of the service, change nothing, whether they are there
    or not. *)
Theorem row_read_from_year_and_time (line1 line2 a1 a2 : string)
  (mid1 mid2 : list string) (th tm ts : string) :
  Str.split_ws line1 = a1 :: mid1 ++ [th; tm; ts] ->
  Str.split_ws line2 = a2 :: mid2 ++ [th; tm; ts] ->
  getitem (Str.split_on "-" a1) 0 = getitem (Str.split_on "-" a2) 0 ->
  parse_row line1 = parse_row line2.
Proof.
  intros H1 H2 Hy.
  rewrite (parse_row_ends line1 a1 mid1 th tm ts H1).
  rewrite (parse_row_ends line2 a2 mid2 th tm ts H2).
  now rewrite Hy.
Qed.

Lemma row_read_from_year_and_time_witness :
  parse_row " 2000-Jan-01 12:00 *m  11 56 43.2074"
  = parse_row "2000-Dec-31 N 11 56 43.2074".
Proof.
  apply (row_read_from_year_and_time _ _ "2000-Jan-01" "2000-Dec-31"
           ["12:00"; "*m"] ["N"] "11" "56" "43.2074"); reflexivity.
Defined.

Lemma split_on_head (sep : ascii) (s w : string) (ws : list string) :
  Str.split_on sep s = w :: ws -> ~ In sep (list_ascii_of_string w).
Proof.
  revert w ws. induction s as [|c s IH]; intros w ws; cbn [Str.split_on].
  - intros [= <- _]. simpl. tauto.
  - destruct (Ascii.eqb c sep) eqn:E.
    + intros [= <- _]. simpl. tauto.
    + apply Ascii.eqb_neq in E.
      destruct (Str.split_on sep s) as [|w' ws'] eqn:Hs.
      * intros [= <- _]. simpl. intuition congruence.
      * intros [= <- _]. simpl. specialize (IH w' ws' eq_refl).
        intuition congruence.
Qed.

Lemma In_lstrip (c : ascii) (cs : list ascii) :
  In c (Str.lstrip cs) -> In c cs.
Proof.
  induction cs as [|a cs IH]; simpl; [tauto|].
  destruct (Str.is_space a); simpl; tauto.
Qed.

Lemma In_strip (c : ascii) (cs : list ascii) : In c (Str.strip cs) -> In c cs.
Proof.
  unfold Str.strip. intros H.
  apply in_rev, In_lstrip, in_rev, In_lstrip in H. assumption.
Qed.

Lemma sign_minus (cs : list ascii) :
  fst (Str.sign cs) = true -> In "-"%char cs.
Proof.
  destruct cs as [|c cs]; [discriminate|].
  destruct c as [[] [] [] [] [] [] [] []]; simpl; try discriminate.
  intros _. now left.
Qed.

Lemma int_nonneg (s : string) (n : Z) :
  ~ In "-"%char (list_ascii_of_string s) -> int s = Ok n -> 0 <= n.
Proof.
  intros Hno. unfold int.
  destruct (Str.sign (Str.strip (list_ascii_of_string s)))
    as [neg body] eqn:Hsign.
  assert (Hneg : neg = false).
  { destruct neg; [|reflexivity]. exfalso. apply Hno, In_strip.
    apply sign_minus. now rewrite Hsign. }
  subst neg.
  destruct (Str.drop_underscores None body) as [[|c cs]|]; try discriminate.
  destruct (Str.digits 0 0 (c :: cs)) as [[k [|m]] [|r rs]]; try discriminate.
  intros [= <-]. lia.
Qed.

(** X8.  The year of a row is never negative: it is read from what stands
    before the first [-] of the date, where no minus sign can be. *)
Theorem year_nonnegative (line : string) (y : Z) (v : Float.float) :
  parse_row line = Ok (y, v) -> 0 <= y.
Proof.
  unfold parse_row. intros H.
  apply bind_Ok in H. destruct H as (a0 & _ & H).
  apply bind_Ok in H. destruct H as (y0 & Hy0 & H).
  apply bind_Ok in H. destruct H as (year & Hyear & H).
  assert (year = y) as ->.
  { repeat (apply bind_Ok in H; destruct H as (? & _ & H)).
    now injection H. }
  apply getitem_0_inv in Hy0. destruct Hy0 as (ws & Hsplit).
  eapply int_nonneg; [|exact Hyear].
  eapply split_on_head; eauto.
Qed.

Lemma year_nonnegative_witness :
  exists v, parse_row row_1999 = Ok (1999, v) /\ 0 <= 1999.
Proof.
  eexists. split; [vm_compute; reflexivity|].
  eapply (year_nonnegative row_1999). vm_compute. reflexivity.
Defined.

(** ** The order of the keys *)

Lemma keys_remove {V : Type} (d : dict V) (k : Z) :
  keys (remove d k) = filter (fun k' => negb (k' =? k)) (keys d).
Proof.
  unfold remove, keys. induction d as [|[k0 v0] d IH]; simpl; [reflexivity|].
  destruct (k0 =? k); simpl; now rewrite IH.
Qed.

Lemma keys_append (d : table) (y : Z) (v : value) :
  keys (append d y v) =
    if existsb (Z.eqb y) (keys d) then keys d else keys d ++ [y].
Proof.
  rewrite append_set.
  destruct (existsb (Z.eqb y) (keys d)) eqn:E.
  - apply keys_set_present. apply existsb_exists in E.
    destruct E as (k & Hin & Hk). apply Z.eqb_eq in Hk. now subst.
  - apply keys_set_absent. intros Hin.
    assert (existsb (Z.eqb y) (keys d) = true)
      by (apply existsb_exists; exists y; split; [assumption | apply Z.eqb_refl]).
    congruence.
Qed.

Lemma filter_twice {A : Type} (f g : A -> bool) (l : list A) :
  filter f (filter g l) = filter (fun x => g x && f x) l.
Proof.
  induction l as [|a l IH]; simpl; [reflexivity|].
  destruct (g a); simpl; [destruct (f a)|]; now rewrite IH.
Qed.

Lemma keys_group rows (d : table) :
  keys (group rows d) =
    keys d ++ filter (fun k => negb (existsb (Z.eqb k) (keys d)))
                (first_seen (map fst rows)).
Proof.
  revert d. induction rows as [|[y v] rows IH]; intros d.
  - simpl. now rewrite app_nil_r.
  - change (group ((y, v) :: rows) d)
      with (group rows (append d y (PyFloat v))).
    rewrite IH, keys_append. cbn [map fst first_seen filter].
    destruct (existsb (Z.eqb y) (keys d)) eqn:E; cbn [negb].
    + f_equal. rewrite filter_twice. apply filter_ext. intros k.
      destruct (existsb (Z.eqb k) (keys d)) eqn:Ek;
        [now rewrite andb_false_r|].
      destruct (k =? y) eqn:Eky; [|reflexivity].
      apply Z.eqb_eq in Eky. subst. congruence.
    + rewrite <- app_assoc. f_equal. cbn [app]. f_equal.
      rewrite filter_twice. apply filter_ext. intros k.
      rewrite existsb_app. cbn [existsb]. rewrite orb_false_r.
      rewrite negb_orb. apply andb_comm.
Qed.

Lemma filter_all {A : Type} (l : list A) : filter (fun _ => true) l = l.
Proof. induction l; simpl; congruence. Qed.

Lemma pad_keys (start end_ : Z) (d t : table) :
  pad start end_ d = Ok t ->
  keys t =
    filter (fun k => negb (k =? end_ + 1))
      (filter (fun k => negb (k =? start - 1)) (keys d)).
Proof.
  intros H. destruct (pad_inv start end_ d t H) as (H0 & H1 & Hne & Hb).
  apply len_1 in H0. destruct H0 as [v0 H0].
  apply len_1 in H1. destruct H1 as [v1 H1].
  rewrite (pad_asserted start end_ d v0 v1) in H by assumption.
  rewrite ends_loop_ok in H
    by (intros y Hy; apply In_range in Hy; apply Hne; lia).
  cbn [bind] in H.
  destruct (pad_loop
              (ends_of d (set (set [] (start - 1) (PyNone, v0)) (end_ + 1)
                            (v1, PyNone)) (range start (end_ + 1)))
              d (range start (end_ + 1)))
    as (t1 & Ht1 & Hkeys & _).
  { apply NoDup_range. }
  { intros y Hy. apply items_nonempty_In, Hne. apply In_range in Hy. lia. }
  { intros y Hy. apply In_range in Hy.
    destruct (ends_prev start end_ d v0 v1 y) as (p & Hp & _); auto; [lia|].
    destruct (ends_next start end_ d v0 v1 y) as (n & Hn & _); auto; [lia|].
    exists p, n. split; assumption. }
  rewrite Ht1 in H. cbn [bind] in H. unfold del in H.
  destruct (get t1 (start - 1)); [|discriminate]. cbn [bind] in H.
  destruct (get (remove t1 (start - 1)) (end_ + 1)); [|discriminate].
  injection H as <-. now rewrite !keys_remove, Hkeys.
Qed.

(** X9.  The keys of the dumped table stand, and are written by
    [json.dump], in the order in which their years first occur in the data
    rows, the two boundary years left out. *)
Theorem keys_in_order_of_first_row (start end_ : Z) (text : string)
  (t : table) :
  main start end_ text = Ok t ->
  exists rows,
    rows_of text = Ok rows /\
    json_keys t =
      map json_key
        (filter (fun k => negb (k =? end_ + 1))
           (filter (fun k => negb (k =? start - 1))
              (first_seen (map fst rows)))).
Proof.
  intros H. rewrite main_rows in H.
  destruct (rows_of text) as [rows|e]; [|discriminate]. cbn [bind] in H.
  exists rows. split; [reflexivity|].
  unfold json_keys. rewrite (pad_keys start end_ _ t H), keys_group.
  cbn [keys map app existsb negb]. now rewrite filter_all.
Qed.

Lemma keys_in_order_of_first_row_witness :
  exists t rows,
    main start end_ response_extra_year = Ok t /\
    rows_of response_extra_year = Ok rows /\
    json_keys t =
      map json_key
        (filter (fun k => negb (k =? end_ + 1))
           (filter (fun k => negb (k =? start - 1))
              (first_seen (map fst rows)))) /\
    firstn 3 (json_keys t) = ["1998"; "2000"; "2001"].
Proof.
  assert (H : exists t, main start end_ response_extra_year = Ok t /\
                        firstn 3 (json_keys t) = ["1998"; "2000"; "2001"])
    by (eexists; split; vm_compute; reflexivity).
  destruct H as (t & H & H3).
  destruct (keys_in_order_of_first_row start end_ response_extra_year t H)
    as (rows & Hrows & Hk).
  exists t, rows. auto.
Defined.

Lemma In_first_seen (l : list Z) (k : Z) : In k (first_seen l) <-> In k l.
Proof.
  induction l as [|y l IH]; simpl; [tauto|].
  rewrite filter_In, IH. destruct (Z.eq_dec y k) as [->|Hne].
  - tauto.
  - split; [tauto|]. intros [H|H]; [congruence|]. right. split; [assumption|].
    destruct (k =? y) eqn:E; [apply Z.eqb_eq in E; congruence | reflexivity].
Qed.

Lemma StronglySorted_filter {A : Type} (R : A -> A -> Prop)
  (f : A -> bool) (l : list A) :
  Sorted.StronglySorted R l -> Sorted.StronglySorted R (filter f l).
Proof.
  induction 1 as [|a l Hl IH Hall]; simpl; [constructor|].
  destruct (f a); [|assumption]. constructor; [assumption|].
  rewrite Forall_forall in *. intros x Hx. apply filter_In in Hx.
  apply Hall. tauto.
Qed.

Lemma first_seen_sorted (l : list Z) :
  Sorted.StronglySorted Z.le l -> Sorted.StronglySorted Z.lt (first_seen l).
Proof.
  induction 1 as [|y l Hl IH Hall]; simpl; constructor.
  - now apply StronglySorted_filter.
  - rewrite Forall_forall in *. intros k Hk. apply filter_In in Hk.
    destruct Hk as (Hk & Hne). apply -> In_first_seen in Hk.
    specialize (Hall k Hk).
    destruct (k =? y) eqn:E; [discriminate|]. apply Z.eqb_neq in E. lia.
Qed.

(** X10.  For a response whose rows are in chronological order (the years
    of the rows never decrease) the keys of the dumped table are in
    strictly increasing order. *)
Theorem keys_increasing (start end_ : Z) (text : string)
  (rows : list (Z * Float.float)) (t : table) :
  rows_of text = Ok rows ->
  Sorted.StronglySorted Z.le (map fst rows) ->
  main start end_ text = Ok t ->
  Sorted.StronglySorted Z.lt (keys t).
Proof.
  intros Hrows Hsorted H. rewrite main_rows, Hrows in H. cbn [bind] in H.
  rewrite (pad_keys start end_ _ t H), keys_group.
  cbn [keys map app existsb negb]. rewrite filter_all.
  now apply StronglySorted_filter, StronglySorted_filter, first_seen_sorted.
Qed.

Lemma nondecreasing_sorted (l : list Z) :
  nondecreasing l = true -> Sorted.StronglySorted Z.le l.
Proof.
  intros H. apply Sorted.Sorted_StronglySorted; [exact Z.le_trans|].
  induction l as [|y [|y' l] IH].
  - constructor.
  - constructor; constructor.
  - cbn [nondecreasing] in H. apply andb_true_iff in H.
    destruct H as (Hle & H). constructor.
    + now apply IH.
    + constructor. now apply Z.leb_le in Hle.
Qed.

Lemma keys_increasing_witness :
  exists rows t,
    rows_of response_ok = Ok rows /\
    main start end_ response_ok = Ok t /\
    Sorted.StronglySorted Z.lt (keys t).
Proof.
  assert (H : exists rows t,
            rows_of response_ok = Ok rows /\
            nondecreasing (map fst rows) = true /\
            main start end_ response_ok = Ok t)
    by (eexists; eexists; split; [|split]; vm_compute; reflexivity).
  destruct H as (rows & t & Hrows & Hsorted & Ht).
  exists rows, t. split; [assumption|]. split; [assumption|].
  apply (keys_increasing start end_ response_ok rows t Hrows).
  - now apply nondecreasing_sorted.
  - assumption.
Defined.

(** ** The padded lists *)

(** X11.  The list dumped for a year of the range has two elements more
    than the year has rows; a year outside the range that is dumped has
    its own values and nothing else. *)
Theorem padded_by_two (start end_ : Z) (text : string) (t : table) :
  main start end_ text = Ok t ->
  exists rows,
    rows_of text = Ok rows /\
    (forall y, start <= y <= end_ ->
       len (items t y) = len (samples rows y) + 2) /\
    (forall k, ~ start <= k <= end_ -> In k (keys t) ->
       items t k = map PyFloat (samples rows k)).
Proof.
  intros H. apply main_inv in H.
  destruct H as (rows & Hrows & _ & _ & _ & Hyear & Hother).
  exists rows. split; [assumption|]. split.
  - intros y Hy. destruct (Hyear y Hy) as (a & b & _ & _ & Hg).
    rewrite (items_Some _ _ _ Hg), len_cons, len_app, len_map.
    change (len [PyFloat b]) with 1. lia.
  - intros k Hk Hin. apply get_items in Hin.
    now apply (Hother k (items t k) Hk).
Qed.

Lemma padded_by_two_witness :
  exists t rows,
    main start end_ response_extra_year = Ok t /\
    rows_of response_extra_year = Ok rows /\
    (forall y, start <= y <= end_ ->
       len (items t y) = len (samples rows y) + 2) /\
    (forall k, ~ start <= k <= end_ -> In k (keys t) ->
       items t k = map PyFloat (samples rows k)) /\
    len (items t 1998) = 1.
Proof.
  assert (H : exists t, main start end_ response_extra_year = Ok t /\
                        len (items t 1998) = 1)
    by (eexists; split; vm_compute; reflexivity).
  destruct H as (t & H & H1).
  destruct (padded_by_two start end_ response_extra_year t H)
    as (rows & Hrows & Hin & Hout).
  exists t, rows. auto.
Defined.

(** X12.  At the two ends of the range the padding is the row of the
    boundary year: the list of [start] begins with the value of the one row
    of [start - 1], and the list of [end] ends with the value of the one
    row of [end + 1]. *)
Theorem outer_padding (start end_ : Z) (text : string) (t : table) :
  start <= end_ ->
  main start end_ text = Ok t ->
  exists rows x0 x1,
    rows_of text = Ok rows /\
    samples rows (start - 1) = [x0] /\ samples rows (end_ + 1) = [x1] /\
    getitem (items t start) 0 = Ok (PyFloat x0) /\
    getitem (items t end_) (-1) = Ok (PyFloat x1).
Proof.
  intros Hse H. apply main_inv in H.
  destruct H as (rows & Hrows & (H0 & H1 & _) & _ & _ & Hyear & _).
  apply len_1 in H0. destruct H0 as (x0 & H0).
  apply len_1 in H1. destruct H1 as (x1 & H1).
  exists rows, x0, x1. repeat split; try assumption.
  - destruct (Hyear start) as (a & b & Ha & _ & Hg); [lia|].
    rewrite (items_Some _ _ _ Hg), H0 in *.
    change (getitem [x0] (-1)) with (Ok (A := Float.float) x0) in Ha.
    injection Ha as <-. reflexivity.
  - destruct (Hyear end_) as (a & b & _ & Hb & Hg); [lia|].
    rewrite (items_Some _ _ _ Hg), H1 in *.
    change (getitem [x1] 0) with (Ok (A := Float.float) x1) in Hb.
    injection Hb as <-.
    change (PyFloat a :: map PyFloat (samples rows end_) ++ [PyFloat x1])
      with ((PyFloat a :: map PyFloat (samples rows end_)) ++ [PyFloat x1]).
    apply getitem_last.
Qed.

Lemma outer_padding_witness :
  exists t rows x0 x1,
    main start end_ response_ok = Ok t /\
    rows_of response_ok = Ok rows /\
    samples rows (start - 1) = [x0] /\ samples rows (end_ + 1) = [x1] /\
    getitem (items t start) 0 = Ok (PyFloat x0) /\
    getitem (items t end_) (-1) = Ok (PyFloat x1).
Proof.
  assert (H : exists t, main start end_ response_ok = Ok t)
    by (eexists; vm_compute; reflexivity).
  destruct H as (t & H).
  destruct (outer_padding start end_ response_ok t)
    as (rows & x0 & x1 & Hrows & H0 & H1 & Hfirst & Hlast);
    [unfold start, end_; lia | assumption |].
  exists t, rows, x0, x1. auto 6.
Defined.
